(** * Operator-basis conversion of propositional formulas

    A verification development for [propositions/operators.py]: the five
    converters [to_not_and_or], [to_not_and], [to_nand], [to_implies_not]
    and [to_implies_false], embedded as Rocq functions over formula trees
    that carry their root label as a string, exactly as the Python class
    does. *)

From Stdlib Require Import Ascii String.
From stdpp Require Import gmap strings.

Local Open Scope string_scope.
#[local] Set Warnings "-clear-no-such-hyp".

(** ** Formula trees *)

(** A [Formula] object has a [root] label and, depending on the kind of the
    root, no child, a [first] child, or a [first] and a [second] child. *)
Inductive Formula : Type :=
| Leaf (root : string)
| Unary (root : string) (first : Formula)
| Binary (root : string) (first second : Formula).

(** ** Outcomes of a call

    A Python call either returns a formula, or produces none (it raises, or
    it falls off the end of the function and returns [None]); the third
    outcome belongs to the embedding only: the recursion budget ran out. *)
Inductive outcome (A : Type) : Type :=
| Returns (a : A)
| Fails
| OutOfFuel.

Arguments Returns {A} a.
Arguments Fails {A}.
Arguments OutOfFuel {A}.

Definition bind {A B : Type} (m : outcome A) (k : A -> outcome B) : outcome B :=
  match m with
  | Returns a => k a
  | Fails => Fails
  | OutOfFuel => OutOfFuel
  end.

Notation "'let*' x ':=' m 'in' k" := (bind m (fun x => k))
  (at level 10, x name, m at level 100, k at level 200).

Notation "a == b" := (String.eqb a b) (at level 70, no associativity).

(** ** The interface of [propositions/syntax.py] *)

Definition is_lowercase (c : ascii) : bool :=
  (Ascii.leb "a" c && Ascii.leb c "z")%char.

(** Modelled from the spec: [is_variable] of [propositions/syntax.py] is not
    part of the sources at hand. A variable name is "an identifier string"
    that "start[s] with lowercase letter". The proofs below use two facts
    only: ['p'] is a variable name, and no constant or operator label is. *)
Definition is_variable (string : string) : bool :=
  match string with
  | EmptyString => false
  | String c _ => is_lowercase c
  end.

(** Modelled from the spec: [is_constant] of [propositions/syntax.py];
    "a leaf labeled [T] (true) or [F] (false)". *)
Definition is_constant (string : string) : bool :=
  (string == "T") || (string == "F").

(** Modelled from the spec: [is_unary] of [propositions/syntax.py];
    "only [not] exists in the grammar", written ['~']. *)
Definition is_unary (string : string) : bool :=
  string == "~".

(** Modelled from the spec: [is_binary] of [propositions/syntax.py]; the
    operators and, or, implies, xor, iff, nand, nor under the labels the
    converters compare the root with. *)
Definition is_binary (string : string) : bool :=
  (string == "&") || (string == "|") || (string == "->") || (string == "+")
  || (string == "<->") || (string == "-&") || (string == "-|").

(** Modelled from the spec: the accessors of the [Formula] class. [root] is
    always there. *)
Definition root (formula : Formula) : string :=
  match formula with
  | Leaf r | Unary r _ | Binary r _ _ => r
  end.

(** Modelled from the spec: [formula.first] exists "for unary/binary nodes";
    reading it on a leaf raises. *)
Definition first (formula : Formula) : outcome Formula :=
  match formula with
  | Leaf _ => Fails
  | Unary _ f | Binary _ f _ => Returns f
  end.

(** Modelled from the spec: [formula.second] exists for binary nodes only. *)
Definition second (formula : Formula) : outcome Formula :=
  match formula with
  | Leaf _ | Unary _ _ => Fails
  | Binary _ _ s => Returns s
  end.

(** Modelled from the spec: the well-formed formulas are the trees the
    [Formula] constructor builds: a leaf carries a variable name or a
    constant, a node with one child carries the unary operator, a node with
    two children carries a binary operator. *)
Fixpoint well_formed (formula : Formula) : bool :=
  match formula with
  | Leaf r => is_variable r || is_constant r
  | Unary r f => is_unary r && well_formed f
  | Binary r f s => is_binary r && well_formed f && well_formed s
  end.

(** Modelled from the spec: the set of operator and constant labels of a
    formula (variable leaves contribute nothing). *)
Fixpoint operators (formula : Formula) : gset string :=
  match formula with
  | Leaf r => if is_variable r then ∅ else {[ r ]}
  | Unary r f => {[ r ]} ∪ operators f
  | Binary r f s => {[ r ]} ∪ operators f ∪ operators s
  end.

(** Modelled from the spec: the set of variable names of a formula. *)
Fixpoint variables (formula : Formula) : gset string :=
  match formula with
  | Leaf r => if is_variable r then {[ r ]} else ∅
  | Unary _ f => variables f
  | Binary _ f s => variables f ∪ variables s
  end.

(** ** The interface of [propositions/semantics.py] *)

(** A variable assignment gives every variable name a truth value. *)
Definition Model : Type := string -> bool.

(** The truth function of a binary operator label. *)
Definition evaluate_binary (root : string) (x y : bool) : option bool :=
  if root == "&" then Some (x && y)
  else if root == "|" then Some (x || y)
  else if root == "->" then Some (implb x y)
  else if root == "+" then Some (xorb x y)
  else if root == "<->" then Some (eqb x y)
  else if root == "-&" then Some (negb (x && y))
  else if root == "-|" then Some (negb (x || y))
  else None.

(** Modelled from the spec: [evaluate] of [propositions/semantics.py], the
    truth value of a formula under an assignment ("truth-table evaluation");
    a tree that is not a formula has no truth value. *)
Fixpoint evaluate (formula : Formula) (model : Model) : option bool :=
  match formula with
  | Leaf r =>
      if is_variable r then Some (model r)
      else if is_constant r then Some (r == "T")
      else None
  | Unary r f =>
      if is_unary r then negb <$> evaluate f model else None
  | Binary r f s =>
      match evaluate f model, evaluate s model with
      | Some x, Some y => evaluate_binary r x y
      | _, _ => None
      end
  end.

(** The length of the longest branch: the recursion depth of a structural
    traversal. *)
Fixpoint height (formula : Formula) : nat :=
  match formula with
  | Leaf _ => 1
  | Unary _ f => S (height f)
  | Binary _ f s => S (Nat.max (height f) (height s))
  end.

(** ** The converters of [propositions/operators.py]

    Every converter is a recursive Python function that also calls itself on
    formulas it has just built, so the embedding recurses on a budget of
    nested calls; [call_budget] is a budget that is always enough. *)

Fixpoint to_not_and_or_rec (fuel : nat) (formula : Formula) : outcome Formula :=
  match fuel with
  | O => OutOfFuel
  | S fuel =>
      let root := root formula in
      if is_variable root then Returns formula
      else if is_constant root then
        let p := Leaf "p" in
        if root == "T" then Returns (Binary "|" p (Unary "~" p))
        else Returns (Binary "&" p (Unary "~" p))
      else if is_unary root then
        let* formula_first := first formula in
        let* inner := to_not_and_or_rec fuel formula_first in
        Returns (Unary "~" inner)
      else
        let* formula_first := first formula in
        let* left := to_not_and_or_rec fuel formula_first in
        let* formula_second := second formula in
        let* right := to_not_and_or_rec fuel formula_second in
        if (root == "&") || (root == "|") then
          Returns (Binary root left right)
        else if root == "->" then
          Returns (Binary "|" (Unary "~" left) right)
        else if root == "+" then
          Returns (Binary "|" (Binary "&" left (Unary "~" right))
                              (Binary "&" (Unary "~" left) right))
        else if root == "<->" then
          Returns (Binary "|" (Binary "&" left right)
                              (Binary "&" (Unary "~" left) (Unary "~" right)))
        else if root == "-&" then
          Returns (Unary "~" (Binary "&" left right))
        else if root == "-|" then
          Returns (Unary "~" (Binary "|" left right))
        else Fails
  end.

Fixpoint to_not_and_rec (fuel : nat) (formula : Formula) : outcome Formula :=
  match fuel with
  | O => OutOfFuel
  | S fuel =>
      let root := root formula in
      if is_variable root then Returns formula
      else if is_constant root then
        let p := Leaf "p" in
        if root == "T" then Returns (Unary "~" (Binary "&" p (Unary "~" p)))
        else Returns (Binary "&" p (Unary "~" p))
      else if is_unary root then
        let* formula_first := first formula in
        let* inner := to_not_and_rec fuel formula_first in
        Returns (Unary "~" inner)
      else
        let* formula_first := first formula in
        let* left := to_not_and_rec fuel formula_first in
        let* formula_second := second formula in
        let* right := to_not_and_rec fuel formula_second in
        if root == "&" then
          Returns (Binary "&" left right)
        else if root == "|" then
          Returns (Unary "~" (Binary "&" (Unary "~" left) (Unary "~" right)))
        else if root == "->" then
          to_not_and_rec fuel
            (Binary "|" (Unary "~" formula_first) formula_second)
        else if root == "+" then
          to_not_and_rec fuel
            (Binary "|" (Binary "&" formula_first (Unary "~" formula_second))
                        (Binary "&" (Unary "~" formula_first) formula_second))
        else if root == "<->" then
          to_not_and_rec fuel
            (Binary "|" (Binary "&" formula_first formula_second)
                        (Binary "&" (Unary "~" formula_first)
                                    (Unary "~" formula_second)))
        else if root == "-&" then
          Returns (Unary "~" (Binary "&" left right))
        else if root == "-|" then
          to_not_and_rec fuel
            (Unary "~" (Binary "|" formula_first formula_second))
        else Returns formula
  end.

Fixpoint to_nand_rec (fuel : nat) (formula : Formula) : outcome Formula :=
  match fuel with
  | O => OutOfFuel
  | S fuel =>
      let root := root formula in
      if is_variable root then Returns formula
      else if is_constant root then
        let p := Leaf "p" in
        if root == "T" then
          Returns (Binary "-&" (Binary "-&" p p) (Binary "-&" p p))
        else Returns (Binary "-&" p (Binary "-&" p p))
      else if is_unary root then
        let* formula_first := first formula in
        let* inner := to_nand_rec fuel formula_first in
        Returns (Binary "-&" inner inner)
      else
        let* formula_first := first formula in
        let* left := to_nand_rec fuel formula_first in
        let* formula_second := second formula in
        let* right := to_nand_rec fuel formula_second in
        if root == "&" then
          let nand := Binary "-&" left right in
          Returns (Binary "-&" nand nand)
        else if root == "|" then
          let left_not := Binary "-&" left left in
          let right_not := Binary "-&" right right in
          Returns (Binary "-&" left_not right_not)
        else if root == "->" then
          let not_left := Binary "-&" left left in
          Returns (Binary "-&" not_left right)
        else if root == "+" then
          let* a_or_b :=
            to_nand_rec fuel (Binary "|" formula_first formula_second) in
          let* a_and_b :=
            to_nand_rec fuel (Binary "&" formula_first formula_second) in
          let not_and := Binary "-&" a_and_b a_and_b in
          to_nand_rec fuel (Binary "&" a_or_b not_and)
        else if root == "<->" then
          let* xor :=
            to_nand_rec fuel (Binary "+" formula_first formula_second) in
          Returns (Binary "-&" xor xor)
        else if root == "-&" then
          Returns (Binary "-&" left right)
        else if root == "-|" then
          let* or_formula :=
            to_nand_rec fuel (Binary "|" formula_first formula_second) in
          Returns (Binary "-&" or_formula or_formula)
        else Returns formula
  end.

Fixpoint to_implies_not_rec (fuel : nat) (formula : Formula) : outcome Formula :=
  match fuel with
  | O => OutOfFuel
  | S fuel =>
      let root := root formula in
      if is_variable root then Returns formula
      else if is_constant root then
        let p := Leaf "p" in
        if root == "T" then Returns (Binary "->" p p)
        else Returns (Unary "~" (Binary "->" p p))
      else if is_unary root then
        let* formula_first := first formula in
        let* inner := to_implies_not_rec fuel formula_first in
        Returns (Unary "~" inner)
      else
        let* formula_first := first formula in
        let* left := to_implies_not_rec fuel formula_first in
        let* formula_second := second formula in
        let* right := to_implies_not_rec fuel formula_second in
        if root == "->" then
          Returns (Binary "->" left right)
        else if root == "&" then
          Returns (Unary "~" (Binary "->" left (Unary "~" right)))
        else if root == "|" then
          Returns (Binary "->" (Unary "~" left) right)
        else if root == "+" then
          to_implies_not_rec fuel
            (Binary "|" (Binary "&" formula_first (Unary "~" formula_second))
                        (Binary "&" (Unary "~" formula_first) formula_second))
        else if root == "<->" then
          to_implies_not_rec fuel
            (Binary "|" (Binary "&" formula_first formula_second)
                        (Binary "&" (Unary "~" formula_first)
                                    (Unary "~" formula_second)))
        else if root == "-&" then
          to_implies_not_rec fuel
            (Unary "~" (Binary "&" formula_first formula_second))
        else if root == "-|" then
          to_implies_not_rec fuel
            (Unary "~" (Binary "|" formula_first formula_second))
        else Returns formula
  end.

Fixpoint to_implies_false_rec (fuel : nat) (formula : Formula) : outcome Formula :=
  match fuel with
  | O => OutOfFuel
  | S fuel =>
      let root := root formula in
      if is_variable root then Returns formula
      else if is_constant root then
        if root == "F" then Returns (Leaf "F")
        else Returns (Binary "->" (Leaf "F") (Leaf "F"))
      else if is_unary root then
        let* formula_first := first formula in
        let* inner := to_implies_false_rec fuel formula_first in
        Returns (Binary "->" inner (Leaf "F"))
      else
        let* formula_first := first formula in
        let* left := to_implies_false_rec fuel formula_first in
        let* formula_second := second formula in
        let* right := to_implies_false_rec fuel formula_second in
        if root == "->" then
          Returns (Binary "->" left right)
        else if root == "&" then
          Returns (Binary "->"
                     (Binary "->" left (Binary "->" right (Leaf "F")))
                     (Leaf "F"))
        else if root == "|" then
          Returns (Binary "->" (Binary "->" left (Leaf "F")) right)
        else if root == "+" then
          to_implies_false_rec fuel
            (Binary "|" (Binary "&" formula_first (Unary "~" formula_second))
                        (Binary "&" (Unary "~" formula_first) formula_second))
        else if root == "<->" then
          to_implies_false_rec fuel
            (Binary "|" (Binary "&" formula_first formula_second)
                        (Binary "&" (Unary "~" formula_first)
                                    (Unary "~" formula_second)))
        else if root == "-&" then
          to_implies_false_rec fuel
            (Unary "~" (Binary "&" formula_first formula_second))
        else if root == "-|" then
          to_implies_false_rec fuel
            (Unary "~" (Binary "|" formula_first formula_second))
        else Returns formula
  end.

(** A budget of nested calls that no converter exhausts on a formula: six
    calls for every level of the tree are enough (see the [_total] lemmas),
    the budget has seven. *)
Definition call_budget (formula : Formula) : nat := 7 * height formula.

Definition to_not_and_or (formula : Formula) : outcome Formula :=
  to_not_and_or_rec (call_budget formula) formula.

Definition to_not_and (formula : Formula) : outcome Formula :=
  to_not_and_rec (call_budget formula) formula.

Definition to_nand (formula : Formula) : outcome Formula :=
  to_nand_rec (call_budget formula) formula.

Definition to_implies_not (formula : Formula) : outcome Formula :=
  to_implies_not_rec (call_budget formula) formula.

Definition to_implies_false (formula : Formula) : outcome Formula :=
  to_implies_false_rec (call_budget formula) formula.

(** The five target bases. *)
Definition not_and_or_basis : gset string := {[ "~"; "&"; "|" ]}.
Definition not_and_basis : gset string := {[ "~"; "&" ]}.
Definition nand_basis : gset string := {[ "-&" ]}.
Definition implies_not_basis : gset string := {[ "->"; "~" ]}.
Definition implies_false_basis : gset string := {[ "->"; "F" ]}.

(** ** What a conversion has to achieve *)

(** [G] is a formula over [basis] whose variables are those of [F] and
    possibly those of [extra]. *)
Definition converted (basis extra : gset string) (F G : Formula) : Prop :=
  well_formed G = true /\
  operators G ⊆ basis /\
  variables G ⊆ variables F ∪ extra.

(** [F] and [G] have the same truth value under every assignment. *)
Definition equivalent (F G : Formula) : Prop :=
  forall model : Model, evaluate F model = evaluate G model.

(** The labels of the nodes without children. *)
Fixpoint leaves (formula : Formula) : gset string :=
  match formula with
  | Leaf r => {[ r ]}
  | Unary _ f => leaves f
  | Binary _ f s => leaves f ∪ leaves s
  end.

(** The labels whose encoding by [to_nand] does not have the truth table
    of the operator it replaces. *)
Definition nand_miscoded : gset string := {[ "T"; "F"; "->" ]}.

(** [convert] returns on [F] a formula with the truth value of [F] under
    every assignment. *)
Definition preserves_truth_table
    (convert : Formula -> outcome Formula) (F : Formula) : Prop :=
  exists G, convert F = Returns G /\
    forall model : Model,
      exists b, evaluate F model = Some b /\ evaluate G model = Some b.

(** [convert] returns on [F] a formula whose operator and constant labels
    are in [basis], and whose leaves are variables or constants of
    [basis]. *)
Definition within_basis (basis : gset string)
    (convert : Formula -> outcome Formula) (F : Formula) : Prop :=
  exists G, convert F = Returns G /\
    well_formed G = true /\
    operators G ⊆ basis /\
    forall l, l ∈ leaves G -> is_variable l = true \/ l ∈ basis.

(** [convert] returns on [F] a formula that it returns unchanged when it
    is applied to it again. *)
Definition idempotent_on
    (convert : Formula -> outcome Formula) (F : Formula) : Prop :=
  exists G, convert F = Returns G /\ convert G = Returns G.

(** [convert] returns every formula over [basis] unchanged. *)
Definition identity_on (basis : gset string)
    (convert : Formula -> outcome Formula) : Prop :=
  forall G, well_formed G = true -> operators G ⊆ basis ->
    convert G = Returns G.

(** [convert] returns on [F] a formula whose variables are variables of [F]
    or names of [extra]. *)
Definition variables_within (extra : gset string)
    (convert : Formula -> outcome Formula) (F : Formula) : Prop :=
  exists G, convert F = Returns G /\ variables G ⊆ variables F ∪ extra.

(** Converting the result of a conversion once more. *)
Definition twice (convert : Formula -> outcome Formula)
    (formula : Formula) : outcome Formula :=
  let* converted_once := convert formula in
  convert converted_once.

(** ** Further notions about formulas and results *)

(** Whether a constant leaf occurs in the formula. *)
Fixpoint has_constant (formula : Formula) : bool :=
  match formula with
  | Leaf r => negb (is_variable r) && is_constant r
  | Unary _ f => has_constant f
  | Binary _ f s => has_constant f || has_constant s
  end.

(** The truth value that the result of [to_nand] has, read off its
    encodings: ['T'] is encoded as a formula with the value of [p], ['F'] as
    one that is true, and an implication as one with the value of the
    converse implication; every other operator keeps its truth function. *)
Fixpoint to_nand_truth (formula : Formula) (model : Model) : option bool :=
  match formula with
  | Leaf r =>
      if is_variable r then Some (model r)
      else if r == "T" then Some (model "p")
      else if r == "F" then Some true
      else None
  | Unary r f =>
      if is_unary r then negb <$> to_nand_truth f model else None
  | Binary r f s =>
      match to_nand_truth f model, to_nand_truth s model with
      | Some x, Some y =>
          if r == "->" then Some (implb y x) else evaluate_binary r x y
      | _, _ => None
      end
  end.

(** The name that the constant cases of a converter bring in: ['p'] when
    the formula has a constant, nothing otherwise. *)
Definition fresh_for (formula : Formula) : gset string :=
  if has_constant formula then {[ "p" ]} else ∅.

(** ** Basic facts about labels and outcomes *)

Lemma is_variable_p : is_variable "p" = true.
Proof. reflexivity. Qed.

Lemma is_variable_not_constant (r : string) :
  is_variable r = true -> is_constant r = false.
Proof.
  destruct r as [|c r]; [discriminate|].
  destruct r as [|c' r]; [|destruct c as [[] [] [] [] [] [] [] []]; reflexivity].
  destruct c as [[] [] [] [] [] [] [] []]; intros H; try reflexivity; discriminate H.
Qed.

Lemma is_binary_cases (r : string) :
  is_binary r = true ->
  r = "&" \/ r = "|" \/ r = "->" \/ r = "+" \/ r = "<->" \/ r = "-&" \/ r = "-|".
Proof.
  unfold is_binary. rewrite !orb_true_iff, !String.eqb_eq. tauto.
Qed.

Lemma bind_Returns {A B : Type} (m : outcome A) (k : A -> outcome B) (b : B) :
  bind m k = Returns b -> exists a, m = Returns a /\ k a = Returns b.
Proof. destruct m; simpl; intros H; try discriminate H. eauto. Qed.

(** Induction over well-formed formulas, one case per kind of root. *)
Lemma well_formed_ind (P : Formula -> Prop) :
  (forall x, is_variable x = true -> P (Leaf x)) ->
  P (Leaf "T") ->
  P (Leaf "F") ->
  (forall f, well_formed f = true -> P f -> P (Unary "~" f)) ->
  (forall r f s, is_binary r = true ->
     well_formed f = true -> well_formed s = true ->
     P f -> P s -> P (Binary r f s)) ->
  forall formula, well_formed formula = true -> P formula.
Proof.
  intros Hvar HT HF Hnot Hbin.
  induction formula as [r | r f IHf | r f IHf s IHs]; simpl; intros Hwf.
  - apply orb_true_iff in Hwf as [Hwf | Hwf]; [now apply Hvar|].
    unfold is_constant in Hwf.
    apply orb_true_iff in Hwf as [Hwf | Hwf];
      apply String.eqb_eq in Hwf; subst r; assumption.
  - apply andb_true_iff in Hwf as [Hr Hf].
    apply String.eqb_eq in Hr. subst r. auto.
  - apply andb_true_iff in Hwf as [Hwf Hs].
    apply andb_true_iff in Hwf as [Hr Hf]. auto.
Qed.

(** ** Labels and variables of the formulas the converters build *)

Lemma operators_Unary r f : operators (Unary r f) = {[ r ]} ∪ operators f.
Proof. reflexivity. Qed.

Lemma operators_Binary r f s :
  operators (Binary r f s) = {[ r ]} ∪ operators f ∪ operators s.
Proof. reflexivity. Qed.

Lemma operators_p : operators (Leaf "p") = ∅.
Proof. reflexivity. Qed.

Lemma operators_T : operators (Leaf "T") = {[ "T" ]}.
Proof. reflexivity. Qed.

Lemma operators_F : operators (Leaf "F") = {[ "F" ]}.
Proof. reflexivity. Qed.

Lemma variables_Unary r f : variables (Unary r f) = variables f.
Proof. reflexivity. Qed.

Lemma variables_Binary r f s :
  variables (Binary r f s) = variables f ∪ variables s.
Proof. reflexivity. Qed.

Lemma variables_p : variables (Leaf "p") = {[ "p" ]}.
Proof. reflexivity. Qed.

Lemma variables_T : variables (Leaf "T") = ∅.
Proof. reflexivity. Qed.

Lemma variables_F : variables (Leaf "F") = ∅.
Proof. reflexivity. Qed.

(** ** Tactics for the case analyses *)

Ltac bind_inv H :=
  repeat match type of H with
  | bind _ _ = Returns _ =>
      let a := fresh "a" in
      let Ha := fresh "Ha" in
      apply bind_Returns in H as (a & Ha & H)
  end.

Ltac binary_cases Hr :=
  apply is_binary_cases in Hr;
  destruct Hr as [-> | [-> | [-> | [-> | [-> | [-> | ->]]]]]].

(** Well-formedness of a formula built from well-formed parts. *)
Ltac wf_solve :=
  simpl;
  repeat match goal with
  | Hw : well_formed ?f = true |- context [well_formed ?f] => rewrite Hw
  end;
  reflexivity.

(** The facts that the induction hypothesis gives about every nested call. *)
Ltac use_IH IH :=
  repeat match goal with
  | Hc : _ _ _ = Returns _ |- _ => apply IH in Hc; [|wf_solve]
  | Hc : _ /\ _ |- _ => destruct Hc
  | Hc : converted _ _ _ _ |- _ => unfold converted in Hc
  end.

(** Equality of truth values, by cases on the truth values of the parts. *)
Ltac equiv_solve :=
  let m := fresh "m" in
  intros m;
  repeat match goal with
  | He : equivalent _ _ |- _ =>
      specialize (He m); simpl in He; unfold evaluate_binary in He; simpl in He
  end;
  simpl; unfold evaluate_binary; simpl;
  repeat match goal with
  | He : _ = evaluate _ m |- _ => rewrite <- He; clear He
  end;
  repeat match goal with
  | |- context [evaluate ?f m] => destruct (evaluate f m) as [[]|]
  | |- context [m ?x] => destruct (m x)
  end;
  reflexivity.

(** Inclusion of label sets and of variable sets. *)
Ltac sets_unfold :=
  rewrite ?operators_Unary, ?operators_Binary, ?operators_p, ?operators_T,
    ?operators_F, ?variables_Unary, ?variables_Binary, ?variables_p,
    ?variables_T, ?variables_F in *.

Ltac ops_solve basis :=
  repeat match goal with
  | H : variables _ ⊆ _ |- _ => clear H
  | H : equivalent _ _ |- _ => clear H
  | H : well_formed _ = _ |- _ => clear H
  | H : forall F : Formula, _ |- _ => clear H
  end;
  unfold basis in *; sets_unfold; set_solver.

Ltac vars_solve :=
  repeat match goal with
  | H : operators _ ⊆ _ |- _ => clear H
  | H : equivalent _ _ |- _ => clear H
  | H : well_formed _ = _ |- _ => clear H
  | H : forall F : Formula, _ |- _ => clear H
  end;
  sets_unfold; set_solver.

Ltac converted_solve basis :=
  split; [wf_solve | split; [ops_solve basis | vars_solve]].

Lemma to_not_and_or_rec_sound (fuel : nat) :
  forall F, well_formed F = true ->
  forall G, to_not_and_or_rec fuel F = Returns G ->
    converted not_and_or_basis {[ "p" ]} F G /\ equivalent F G.
Proof.
  induction fuel as [|fuel IH]; [discriminate|].
  refine (well_formed_ind _ _ _ _ _ _).
  - intros x Hx G H. simpl in H. rewrite Hx in H. injection H as <-.
    split; [|intros m; reflexivity].
    split; [simpl; rewrite Hx; reflexivity|].
    unfold operators, variables. rewrite Hx. split; set_solver.
  - intros G H. simpl in H. injection H as <-. split; [converted_solve not_and_or_basis | equiv_solve].
  - intros G H. simpl in H. injection H as <-. split; [converted_solve not_and_or_basis | equiv_solve].
  - intros f Hf _ G H. simpl in H. bind_inv H. injection H as <-.
    use_IH IH. split; [converted_solve not_and_or_basis | equiv_solve].
  - intros r f s Hr Hf Hs _ _ G H. binary_cases Hr; simpl in H; bind_inv H.
    all: try injection H as <-; use_IH IH; split; [converted_solve not_and_or_basis | equiv_solve].
Qed.

Lemma to_not_and_rec_sound (fuel : nat) :
  forall F, well_formed F = true ->
  forall G, to_not_and_rec fuel F = Returns G ->
    converted not_and_basis {[ "p" ]} F G /\ equivalent F G.
Proof.
  induction fuel as [|fuel IH]; [discriminate|].
  refine (well_formed_ind _ _ _ _ _ _).
  - intros x Hx G H. simpl in H. rewrite Hx in H. injection H as <-.
    split; [|intros m; reflexivity].
    split; [simpl; rewrite Hx; reflexivity|].
    unfold operators, variables. rewrite Hx. split; set_solver.
  - intros G H. simpl in H. injection H as <-. split; [converted_solve not_and_basis | equiv_solve].
  - intros G H. simpl in H. injection H as <-. split; [converted_solve not_and_basis | equiv_solve].
  - intros f Hf _ G H. simpl in H. bind_inv H. injection H as <-.
    use_IH IH. split; [converted_solve not_and_basis | equiv_solve].
  - intros r f s Hr Hf Hs _ _ G H. binary_cases Hr; simpl in H; bind_inv H.
    all: try injection H as <-; use_IH IH; split; [converted_solve not_and_basis | equiv_solve].
Qed.

Lemma to_nand_rec_sound (fuel : nat) :
  forall F, well_formed F = true ->
  forall G, to_nand_rec fuel F = Returns G ->
    converted nand_basis {[ "p" ]} F G.
Proof.
  induction fuel as [|fuel IH]; [discriminate|].
  refine (well_formed_ind _ _ _ _ _ _).
  - intros x Hx G H. simpl in H. rewrite Hx in H. injection H as <-.
    split; [simpl; rewrite Hx; reflexivity|].
    unfold operators, variables. rewrite Hx. split; set_solver.
  - intros G H. simpl in H. injection H as <-. converted_solve nand_basis.
  - intros G H. simpl in H. injection H as <-. converted_solve nand_basis.
  - intros f Hf _ G H. simpl in H. bind_inv H. injection H as <-.
    use_IH IH. converted_solve nand_basis.
  - intros r f s Hr Hf Hs _ _ G H. binary_cases Hr; simpl in H; bind_inv H.
    all: try injection H as <-; use_IH IH; converted_solve nand_basis.
Qed.

Lemma to_implies_not_rec_sound (fuel : nat) :
  forall F, well_formed F = true ->
  forall G, to_implies_not_rec fuel F = Returns G ->
    converted implies_not_basis {[ "p" ]} F G /\ equivalent F G.
Proof.
  induction fuel as [|fuel IH]; [discriminate|].
  refine (well_formed_ind _ _ _ _ _ _).
  - intros x Hx G H. simpl in H. rewrite Hx in H. injection H as <-.
    split; [|intros m; reflexivity].
    split; [simpl; rewrite Hx; reflexivity|].
    unfold operators, variables. rewrite Hx. split; set_solver.
  - intros G H. simpl in H. injection H as <-. split; [converted_solve implies_not_basis | equiv_solve].
  - intros G H. simpl in H. injection H as <-. split; [converted_solve implies_not_basis | equiv_solve].
  - intros f Hf _ G H. simpl in H. bind_inv H. injection H as <-.
    use_IH IH. split; [converted_solve implies_not_basis | equiv_solve].
  - intros r f s Hr Hf Hs _ _ G H. binary_cases Hr; simpl in H; bind_inv H.
    all: try injection H as <-; use_IH IH; split; [converted_solve implies_not_basis | equiv_solve].
Qed.

Lemma to_implies_false_rec_sound (fuel : nat) :
  forall F, well_formed F = true ->
  forall G, to_implies_false_rec fuel F = Returns G ->
    converted implies_false_basis ∅ F G /\ equivalent F G.
Proof.
  induction fuel as [|fuel IH]; [discriminate|].
  refine (well_formed_ind _ _ _ _ _ _).
  - intros x Hx G H. simpl in H. rewrite Hx in H. injection H as <-.
    split; [|intros m; reflexivity].
    split; [simpl; rewrite Hx; reflexivity|].
    unfold operators, variables. rewrite Hx. split; set_solver.
  - intros G H. simpl in H. injection H as <-. split; [converted_solve implies_false_basis | equiv_solve].
  - intros G H. simpl in H. injection H as <-. split; [converted_solve implies_false_basis | equiv_solve].
  - intros f Hf _ G H. simpl in H. bind_inv H. injection H as <-.
    use_IH IH. split; [converted_solve implies_false_basis | equiv_solve].
  - intros r f s Hr Hf Hs _ _ G H. binary_cases Hr; simpl in H; bind_inv H.
    all: try injection H as <-; use_IH IH; split; [converted_solve implies_false_basis | equiv_solve].
Qed.


(** ** The budget is enough: every converter returns a formula *)

Lemma height_Unary r f : height (Unary r f) = S (height f).
Proof. reflexivity. Qed.

Lemma height_Binary r f s :
  height (Binary r f s) = S (Nat.max (height f) (height s)).
Proof. reflexivity. Qed.

Lemma height_Leaf r : height (Leaf r) = 1.
Proof. reflexivity. Qed.

(** One more nested call: the budget is not exhausted, the body of the
    function runs, and the calls whose result is known are replaced by it. *)
Ltac call H1 H2 :=
  match goal with
  | |- context [?rec ?n _] =>
      is_var n; destruct n as [|n]; [exfalso; lia|]
  end;
  simpl; rewrite ?H1, ?H2 by lia; simpl.

Ltac calls H1 H2 := repeat call H1 H2; reflexivity.

Ltac total_leaf :=
  eexists; intros n Hn;
  rewrite ?height_Leaf in Hn; destruct n as [|n]; [exfalso; lia|];
  simpl; reflexivity.

Lemma to_not_and_or_rec_total :
  forall F, well_formed F = true ->
  exists G, forall n, 6 * height F <= n -> to_not_and_or_rec n F = Returns G.
Proof.
  refine (well_formed_ind _ _ _ _ _ _).
  - intros x Hx. exists (Leaf x). intros [|n] Hn.
    + rewrite height_Leaf in Hn. lia.
    + simpl. rewrite Hx. reflexivity.
  - total_leaf.
  - total_leaf.
  - intros f Hf [G1 H1]. eexists. intros n Hn.
    rewrite height_Unary in Hn.
    calls H1 H1.
  - intros r f s Hr Hf Hs [G1 H1] [G2 H2].
    binary_cases Hr; eexists; intros n Hn;
      rewrite height_Binary in Hn;
      calls H1 H2.
Qed.

Lemma to_not_and_rec_total :
  forall F, well_formed F = true ->
  exists G, forall n, 6 * height F <= n -> to_not_and_rec n F = Returns G.
Proof.
  refine (well_formed_ind _ _ _ _ _ _).
  - intros x Hx. exists (Leaf x). intros [|n] Hn.
    + rewrite height_Leaf in Hn. lia.
    + simpl. rewrite Hx. reflexivity.
  - total_leaf.
  - total_leaf.
  - intros f Hf [G1 H1]. eexists. intros n Hn.
    rewrite height_Unary in Hn.
    calls H1 H1.
  - intros r f s Hr Hf Hs [G1 H1] [G2 H2].
    binary_cases Hr; eexists; intros n Hn;
      rewrite height_Binary in Hn;
      calls H1 H2.
Qed.

Lemma to_implies_not_rec_total :
  forall F, well_formed F = true ->
  exists G, forall n, 6 * height F <= n -> to_implies_not_rec n F = Returns G.
Proof.
  refine (well_formed_ind _ _ _ _ _ _).
  - intros x Hx. exists (Leaf x). intros [|n] Hn.
    + rewrite height_Leaf in Hn. lia.
    + simpl. rewrite Hx. reflexivity.
  - total_leaf.
  - total_leaf.
  - intros f Hf [G1 H1]. eexists. intros n Hn.
    rewrite height_Unary in Hn.
    calls H1 H1.
  - intros r f s Hr Hf Hs [G1 H1] [G2 H2].
    binary_cases Hr; eexists; intros n Hn;
      rewrite height_Binary in Hn;
      calls H1 H2.
Qed.

Lemma to_implies_false_rec_total :
  forall F, well_formed F = true ->
  exists G, forall n, 6 * height F <= n -> to_implies_false_rec n F = Returns G.
Proof.
  refine (well_formed_ind _ _ _ _ _ _).
  - intros x Hx. exists (Leaf x). intros [|n] Hn.
    + rewrite height_Leaf in Hn. lia.
    + simpl. rewrite Hx. reflexivity.
  - total_leaf.
  - total_leaf.
  - intros f Hf [G1 H1]. eexists. intros n Hn.
    rewrite height_Unary in Hn.
    calls H1 H1.
  - intros r f s Hr Hf Hs [G1 H1] [G2 H2].
    binary_cases Hr; eexists; intros n Hn;
      rewrite height_Binary in Hn;
      calls H1 H2.
Qed.

(** ** A converter leaves the formulas of its own basis as they are *)

(** A label outside the basis cannot occur. *)
Ltac outside basis Ho :=
  exfalso; clear - Ho; unfold basis in Ho; sets_unfold; set_solver.

(** The labels of a part are labels of the whole. *)
Ltac inside Ho := clear - Ho; sets_unfold; set_solver.

Lemma to_not_and_or_rec_basis :
  forall G, well_formed G = true -> operators G ⊆ not_and_or_basis ->
  forall n, height G <= n -> to_not_and_or_rec n G = Returns G.
Proof.
  refine (well_formed_ind _ _ _ _ _ _).
  - intros x Hx _ [|n] Hn; [rewrite height_Leaf in Hn; lia|].
    simpl. rewrite Hx. reflexivity.
  - intros Ho. outside not_and_or_basis Ho.
  - intros Ho [|n] Hn; [rewrite height_Leaf in Hn; lia|].
    first [reflexivity | outside not_and_or_basis Ho].
  - intros f Hf IHf Ho [|n] Hn; rewrite height_Unary in Hn; [lia|].
    assert (Hof : operators f ⊆ not_and_or_basis) by inside Ho.
    first [ simpl; rewrite IHf by (assumption || lia); reflexivity
          | outside not_and_or_basis Ho ].
  - intros r f s Hr Hf Hs IHf IHs Ho [|n] Hn;
      rewrite height_Binary in Hn; [lia|].
    assert (Hof : operators f ⊆ not_and_or_basis) by inside Ho.
    assert (Hos : operators s ⊆ not_and_or_basis) by inside Ho.
    binary_cases Hr;
      first [ simpl; rewrite IHf, IHs by (assumption || lia); reflexivity
            | outside not_and_or_basis Ho ].
Qed.

Lemma to_not_and_rec_basis :
  forall G, well_formed G = true -> operators G ⊆ not_and_basis ->
  forall n, height G <= n -> to_not_and_rec n G = Returns G.
Proof.
  refine (well_formed_ind _ _ _ _ _ _).
  - intros x Hx _ [|n] Hn; [rewrite height_Leaf in Hn; lia|].
    simpl. rewrite Hx. reflexivity.
  - intros Ho. outside not_and_basis Ho.
  - intros Ho [|n] Hn; [rewrite height_Leaf in Hn; lia|].
    first [reflexivity | outside not_and_basis Ho].
  - intros f Hf IHf Ho [|n] Hn; rewrite height_Unary in Hn; [lia|].
    assert (Hof : operators f ⊆ not_and_basis) by inside Ho.
    first [ simpl; rewrite IHf by (assumption || lia); reflexivity
          | outside not_and_basis Ho ].
  - intros r f s Hr Hf Hs IHf IHs Ho [|n] Hn;
      rewrite height_Binary in Hn; [lia|].
    assert (Hof : operators f ⊆ not_and_basis) by inside Ho.
    assert (Hos : operators s ⊆ not_and_basis) by inside Ho.
    binary_cases Hr;
      first [ simpl; rewrite IHf, IHs by (assumption || lia); reflexivity
            | outside not_and_basis Ho ].
Qed.

Lemma to_nand_rec_basis :
  forall G, well_formed G = true -> operators G ⊆ nand_basis ->
  forall n, height G <= n -> to_nand_rec n G = Returns G.
Proof.
  refine (well_formed_ind _ _ _ _ _ _).
  - intros x Hx _ [|n] Hn; [rewrite height_Leaf in Hn; lia|].
    simpl. rewrite Hx. reflexivity.
  - intros Ho. outside nand_basis Ho.
  - intros Ho [|n] Hn; [rewrite height_Leaf in Hn; lia|].
    first [reflexivity | outside nand_basis Ho].
  - intros f Hf IHf Ho [|n] Hn; rewrite height_Unary in Hn; [lia|].
    assert (Hof : operators f ⊆ nand_basis) by inside Ho.
    first [ simpl; rewrite IHf by (assumption || lia); reflexivity
          | outside nand_basis Ho ].
  - intros r f s Hr Hf Hs IHf IHs Ho [|n] Hn;
      rewrite height_Binary in Hn; [lia|].
    assert (Hof : operators f ⊆ nand_basis) by inside Ho.
    assert (Hos : operators s ⊆ nand_basis) by inside Ho.
    binary_cases Hr;
      first [ simpl; rewrite IHf, IHs by (assumption || lia); reflexivity
            | outside nand_basis Ho ].
Qed.

Lemma to_implies_not_rec_basis :
  forall G, well_formed G = true -> operators G ⊆ implies_not_basis ->
  forall n, height G <= n -> to_implies_not_rec n G = Returns G.
Proof.
  refine (well_formed_ind _ _ _ _ _ _).
  - intros x Hx _ [|n] Hn; [rewrite height_Leaf in Hn; lia|].
    simpl. rewrite Hx. reflexivity.
  - intros Ho. outside implies_not_basis Ho.
  - intros Ho [|n] Hn; [rewrite height_Leaf in Hn; lia|].
    first [reflexivity | outside implies_not_basis Ho].
  - intros f Hf IHf Ho [|n] Hn; rewrite height_Unary in Hn; [lia|].
    assert (Hof : operators f ⊆ implies_not_basis) by inside Ho.
    first [ simpl; rewrite IHf by (assumption || lia); reflexivity
          | outside implies_not_basis Ho ].
  - intros r f s Hr Hf Hs IHf IHs Ho [|n] Hn;
      rewrite height_Binary in Hn; [lia|].
    assert (Hof : operators f ⊆ implies_not_basis) by inside Ho.
    assert (Hos : operators s ⊆ implies_not_basis) by inside Ho.
    binary_cases Hr;
      first [ simpl; rewrite IHf, IHs by (assumption || lia); reflexivity
            | outside implies_not_basis Ho ].
Qed.

Lemma to_implies_false_rec_basis :
  forall G, well_formed G = true -> operators G ⊆ implies_false_basis ->
  forall n, height G <= n -> to_implies_false_rec n G = Returns G.
Proof.
  refine (well_formed_ind _ _ _ _ _ _).
  - intros x Hx _ [|n] Hn; [rewrite height_Leaf in Hn; lia|].
    simpl. rewrite Hx. reflexivity.
  - intros Ho. outside implies_false_basis Ho.
  - intros Ho [|n] Hn; [rewrite height_Leaf in Hn; lia|].
    first [reflexivity | outside implies_false_basis Ho].
  - intros f Hf IHf Ho [|n] Hn; rewrite height_Unary in Hn; [lia|].
    assert (Hof : operators f ⊆ implies_false_basis) by inside Ho.
    first [ simpl; rewrite IHf by (assumption || lia); reflexivity
          | outside implies_false_basis Ho ].
  - intros r f s Hr Hf Hs IHf IHs Ho [|n] Hn;
      rewrite height_Binary in Hn; [lia|].
    assert (Hof : operators f ⊆ implies_false_basis) by inside Ho.
    assert (Hos : operators s ⊆ implies_false_basis) by inside Ho.
    binary_cases Hr;
      first [ simpl; rewrite IHf, IHs by (assumption || lia); reflexivity
            | outside implies_false_basis Ho ].
Qed.


(** [to_nand] calls itself on formulas made of its own results (the ['+']
    case), so its budget argument also needs a bound on their height. *)
Lemma to_nand_rec_total :
  forall F, well_formed F = true ->
  exists G, (forall n, 6 * height F <= n -> to_nand_rec n F = Returns G) /\
            height G <= 6 * height F.
Proof.
  refine (well_formed_ind _ _ _ _ _ _).
  - intros x Hx. exists (Leaf x). split; [|rewrite !height_Leaf; lia].
    intros [|n] Hn.
    + rewrite height_Leaf in Hn. lia.
    + simpl. rewrite Hx. reflexivity.
  - eexists. split.
    + intros [|n] Hn;
        [rewrite height_Leaf in Hn; lia|].
      reflexivity.
    + cbn [height]. lia.
  - eexists. split.
    + intros [|n] Hn;
        [rewrite height_Leaf in Hn; lia|].
      reflexivity.
    + cbn [height]. lia.
  - intros f Hf (G1 & H1 & B1). eexists. split.
    + intros n Hn. rewrite height_Unary in Hn.
      calls H1 H1.
    + cbn [height]. lia.
  - intros r f s Hr Hf Hs (G1 & H1 & B1) (G2 & H2 & B2).
    destruct (to_nand_rec_sound _ f Hf G1 (H1 _ (Nat.le_refl _)))
      as (W1 & O1 & _).
    destruct (to_nand_rec_sound _ s Hs G2 (H2 _ (Nat.le_refl _)))
      as (W2 & O2 & _).
    pose proof (to_nand_rec_basis G1 W1 O1) as K1.
    pose proof (to_nand_rec_basis G2 W2 O2) as K2.
    binary_cases Hr; eexists;
      (split;
       [ intros n Hn; rewrite height_Binary in Hn;
         repeat (call H1 H2; rewrite ?K1, ?K2 by lia; simpl); reflexivity
       | cbn [height]; lia ]).
Qed.

(** ** The converters proper *)

Lemma call_budget_height (F : Formula) : height F <= call_budget F.
Proof. unfold call_budget. lia. Qed.

Lemma to_not_and_or_returns (F : Formula) :
  well_formed F = true -> exists G, to_not_and_or F = Returns G.
Proof.
  intros Hwf. destruct (to_not_and_or_rec_total F Hwf) as [G HG].
  exists G. apply HG. unfold call_budget. lia.
Qed.

Lemma to_not_and_returns (F : Formula) :
  well_formed F = true -> exists G, to_not_and F = Returns G.
Proof.
  intros Hwf. destruct (to_not_and_rec_total F Hwf) as [G HG].
  exists G. apply HG. unfold call_budget. lia.
Qed.

Lemma to_nand_returns (F : Formula) :
  well_formed F = true -> exists G, to_nand F = Returns G.
Proof.
  intros Hwf. destruct (to_nand_rec_total F Hwf) as (G & HG & _).
  exists G. apply HG. unfold call_budget. lia.
Qed.

Lemma to_implies_not_returns (F : Formula) :
  well_formed F = true -> exists G, to_implies_not F = Returns G.
Proof.
  intros Hwf. destruct (to_implies_not_rec_total F Hwf) as [G HG].
  exists G. apply HG. unfold call_budget. lia.
Qed.

Lemma to_implies_false_returns (F : Formula) :
  well_formed F = true -> exists G, to_implies_false F = Returns G.
Proof.
  intros Hwf. destruct (to_implies_false_rec_total F Hwf) as [G HG].
  exists G. apply HG. unfold call_budget. lia.
Qed.

(** A larger budget changes nothing. *)
Lemma to_not_and_budget (F : Formula) (n : nat) :
  well_formed F = true -> 6 * height F <= n ->
  to_not_and_rec n F = to_not_and F.
Proof.
  intros Hwf Hn. destruct (to_not_and_rec_total F Hwf) as [G HG].
  unfold to_not_and. rewrite (HG n Hn). symmetry. apply HG. unfold call_budget. lia.
Qed.

Lemma to_nand_budget (F : Formula) (n : nat) :
  well_formed F = true -> 6 * height F <= n ->
  to_nand_rec n F = to_nand F.
Proof.
  intros Hwf Hn. destruct (to_nand_rec_total F Hwf) as (G & HG & _).
  unfold to_nand. rewrite (HG n Hn). symmetry. apply HG. unfold call_budget. lia.
Qed.

Lemma evaluate_well_formed (F : Formula) (model : Model) :
  well_formed F = true -> exists b, evaluate F model = Some b.
Proof.
  revert F. refine (well_formed_ind _ _ _ _ _ _).
  - intros x Hx. simpl. rewrite Hx. eauto.
  - simpl. eauto.
  - simpl. eauto.
  - intros f _ [b Hb]. simpl. rewrite Hb. simpl. eauto.
  - intros r f s Hr _ _ [b Hb] [c Hc]. simpl. rewrite Hb, Hc.
    binary_cases Hr; unfold evaluate_binary; simpl; eauto.
Qed.

(** A formula over a basis has no leaf but variables and the constants of
    the basis. *)
Lemma leaves_operators (basis : gset string) (G : Formula) :
  operators G ⊆ basis ->
  forall l, l ∈ leaves G -> is_variable l = true \/ l ∈ basis.
Proof.
  induction G as [r | r f IHf | r f IHf s IHs]; intros Ho l Hl.
  - simpl in Hl. apply elem_of_singleton in Hl. subst l.
    unfold operators in Ho. destruct (is_variable r); [left; reflexivity|].
    right. set_solver.
  - rewrite operators_Unary in Ho. apply IHf; [set_solver|exact Hl].
  - rewrite operators_Binary in Ho. simpl in Hl.
    apply elem_of_union in Hl as [Hl | Hl];
      [apply IHf | apply IHs]; try exact Hl; set_solver.
Qed.

(** ** Where [to_nand] keeps the truth table

    The encodings of ['T'], ['F'] and ['->'] in [to_nand] are the only ones
    that change the truth table: on formulas without these labels the
    result is equivalent to the input. *)

Ltac nand_facts :=
  repeat match goal with
  | Hc : to_nand_rec ?n ?X = Returns ?a |- _ =>
      lazymatch goal with
      | _ : operators a ⊆ nand_basis |- _ => fail
      | _ => idtac
      end;
      let W := fresh "W" in
      assert (W : well_formed X = true) by wf_solve;
      destruct (to_nand_rec_sound n X W a Hc) as (? & ? & _); clear W
  end.

Ltac disjoint_solve :=
  repeat match goal with
  | H : forall F : Formula, _ |- _ => clear H
  | H : well_formed _ = _ |- _ => clear H
  | H : equivalent _ _ |- _ => clear H
  | H : _ = Returns _ |- _ => clear H
  end;
  unfold nand_miscoded, nand_basis in *; sets_unfold; set_solver.

Ltac nand_IH IH :=
  repeat match goal with
  | Hc : to_nand_rec _ _ = Returns _ |- _ =>
      apply IH in Hc; [|wf_solve|disjoint_solve]
  end.

Lemma to_nand_rec_equivalent (fuel : nat) :
  forall F, well_formed F = true -> operators F ## nand_miscoded ->
  forall G, to_nand_rec fuel F = Returns G -> equivalent F G.
Proof.
  induction fuel as [|fuel IH]; [discriminate|].
  refine (well_formed_ind _ _ _ _ _ _).
  - intros x Hx _ G H. simpl in H. rewrite Hx in H. injection H as <-.
    intros m. reflexivity.
  - intros Ho. exfalso. disjoint_solve.
  - intros Ho. exfalso. disjoint_solve.
  - intros f Hf _ Ho G H. simpl in H. bind_inv H. injection H as <-.
    nand_IH IH. equiv_solve.
  - intros r f s Hr Hf Hs _ _ Ho G H.
    binary_cases Hr; [| |exfalso; disjoint_solve| | | |];
      simpl in H; bind_inv H; try injection H as <-;
      nand_facts; nand_IH IH; equiv_solve.
Qed.

(** ** Correctness of the four converters that keep the truth table *)

Lemma to_not_and_or_correct (F : Formula) :
  well_formed F = true ->
  exists G, to_not_and_or F = Returns G /\
            converted not_and_or_basis {[ "p" ]} F G /\ equivalent F G.
Proof.
  intros Hwf. destruct (to_not_and_or_returns F Hwf) as [G HG].
  exists G. split; [exact HG|].
  exact (to_not_and_or_rec_sound _ F Hwf G HG).
Qed.

Lemma to_not_and_correct (F : Formula) :
  well_formed F = true ->
  exists G, to_not_and F = Returns G /\
            converted not_and_basis {[ "p" ]} F G /\ equivalent F G.
Proof.
  intros Hwf. destruct (to_not_and_returns F Hwf) as [G HG].
  exists G. split; [exact HG|].
  exact (to_not_and_rec_sound _ F Hwf G HG).
Qed.

Lemma to_nand_correct (F : Formula) :
  well_formed F = true ->
  exists G, to_nand F = Returns G /\ converted nand_basis {[ "p" ]} F G.
Proof.
  intros Hwf. destruct (to_nand_returns F Hwf) as [G HG].
  exists G. split; [exact HG|].
  exact (to_nand_rec_sound _ F Hwf G HG).
Qed.

Lemma to_implies_not_correct (F : Formula) :
  well_formed F = true ->
  exists G, to_implies_not F = Returns G /\
            converted implies_not_basis {[ "p" ]} F G /\ equivalent F G.
Proof.
  intros Hwf. destruct (to_implies_not_returns F Hwf) as [G HG].
  exists G. split; [exact HG|].
  exact (to_implies_not_rec_sound _ F Hwf G HG).
Qed.

Lemma to_implies_false_correct (F : Formula) :
  well_formed F = true ->
  exists G, to_implies_false F = Returns G /\
            converted implies_false_basis ∅ F G /\ equivalent F G.
Proof.
  intros Hwf. destruct (to_implies_false_returns F Hwf) as [G HG].
  exists G. split; [exact HG|].
  exact (to_implies_false_rec_sound _ F Hwf G HG).
Qed.

(** On formulas without ['T'], ['F'] and ['->'], [to_nand] keeps the truth
    table as well. *)
Lemma to_nand_equivalent (F : Formula) :
  well_formed F = true -> operators F ## nand_miscoded ->
  exists G, to_nand F = Returns G /\ equivalent F G.
Proof.
  intros Hwf Ho. destruct (to_nand_returns F Hwf) as [G HG].
  exists G. split; [exact HG|].
  exact (to_nand_rec_equivalent _ F Hwf Ho G HG).
Qed.

(** Formulas of the basis come back unchanged. *)
Lemma to_not_and_or_basis (G : Formula) :
  well_formed G = true -> operators G ⊆ not_and_or_basis ->
  to_not_and_or G = Returns G.
Proof.
  intros Hwf Ho.
  apply to_not_and_or_rec_basis; auto using call_budget_height.
Qed.

Lemma to_not_and_basis (G : Formula) :
  well_formed G = true -> operators G ⊆ not_and_basis ->
  to_not_and G = Returns G.
Proof.
  intros Hwf Ho. apply to_not_and_rec_basis; auto using call_budget_height.
Qed.

Lemma to_nand_basis (G : Formula) :
  well_formed G = true -> operators G ⊆ nand_basis ->
  to_nand G = Returns G.
Proof.
  intros Hwf Ho. apply to_nand_rec_basis; auto using call_budget_height.
Qed.

Lemma to_implies_not_basis (G : Formula) :
  well_formed G = true -> operators G ⊆ implies_not_basis ->
  to_implies_not G = Returns G.
Proof.
  intros Hwf Ho.
  apply to_implies_not_rec_basis; auto using call_budget_height.
Qed.

Lemma to_implies_false_basis (G : Formula) :
  well_formed G = true -> operators G ⊆ implies_false_basis ->
  to_implies_false G = Returns G.
Proof.
  intros Hwf Ho.
  apply to_implies_false_rec_basis; auto using call_budget_height.
Qed.

(** Without the precondition the end of [to_not_and_or] is reached: on a
    node with two children and an unknown label no formula is returned,
    where the other converters hand the input back. *)
Lemma to_not_and_or_unknown_root :
  to_not_and_or (Binary "?" (Leaf "p") (Leaf "q")) = Fails /\
  to_not_and (Binary "?" (Leaf "p") (Leaf "q"))
    = Returns (Binary "?" (Leaf "p") (Leaf "q")).
Proof. split; reflexivity. Qed.

(** ** The code, case by case *)

Lemma to_not_and_rec_or (n : nat) (A B : Formula) :
  to_not_and_rec (S n) (Binary "|" A B) =
  let* left := to_not_and_rec n A in
  let* right := to_not_and_rec n B in
  Returns (Unary "~" (Binary "&" (Unary "~" left) (Unary "~" right))).
Proof. reflexivity. Qed.

Lemma to_nand_rec_nor (n : nat) (A B : Formula) :
  to_nand_rec (S n) (Binary "-|" A B) =
  let* left := to_nand_rec n A in
  let* right := to_nand_rec n B in
  let* or_formula := to_nand_rec n (Binary "|" A B) in
  Returns (Binary "-&" or_formula or_formula).
Proof. reflexivity. Qed.

Lemma to_nand_rec_not (n : nat) (A : Formula) :
  to_nand_rec (S n) (Unary "~" A) =
  let* inner := to_nand_rec n A in
  Returns (Binary "-&" inner inner).
Proof. reflexivity. Qed.

Lemma call_budget_Binary (r : string) (A B : Formula) :
  call_budget (Binary r A B) =
  S (6 + 7 * Nat.max (height A) (height B)).
Proof. unfold call_budget. rewrite height_Binary. lia. Qed.

Lemma preserves_of_equivalent convert F G :
  well_formed F = true -> convert F = Returns G -> equivalent F G ->
  preserves_truth_table convert F.
Proof.
  intros Hwf HG He. exists G. split; [exact HG|]. intros model.
  destruct (evaluate_well_formed F model Hwf) as [b Hb].
  exists b. split; [exact Hb|]. rewrite <- (He model). exact Hb.
Qed.

Lemma within_of_converted basis extra convert F G :
  convert F = Returns G -> converted basis extra F G ->
  within_basis basis convert F.
Proof.
  intros HG (Hw & Ho & _). exists G. repeat split; try assumption.
  now apply leaves_operators.
Qed.

(** ** The claims *)

(** C1 (the code departs from it): [to_nand] does not preserve the truth
    table of the constants: it returns for ['T'] a formula that is false
    when [p] is false, and for ['F'] a formula that is true; the encoding
    of ['->'] fails in the same way. *)
Theorem to_nand_changes_truth_table :
  ~ preserves_truth_table to_nand (Leaf "T") /\
  ~ preserves_truth_table to_nand (Leaf "F") /\
  ~ preserves_truth_table to_nand (Binary "->" (Leaf "p") (Leaf "q")).
Proof.
  repeat split; intros (G & HG & He).
  - vm_compute in HG. injection HG as <-.
    destruct (He (fun _ => false)) as (b & H1 & H2).
    vm_compute in H1, H2. congruence.
  - vm_compute in HG. injection HG as <-.
    destruct (He (fun _ => false)) as (b & H1 & H2).
    vm_compute in H1, H2. congruence.
  - vm_compute in HG. injection HG as <-.
    destruct (He (fun x => x == "q")) as (b & H1 & H2).
    vm_compute in H1, H2. congruence.
Qed.

(** C2: each of [to_not_and_or], [to_not_and], [to_implies_not] and
    [to_implies_false] returns, on every formula, a formula that has the
    truth value of its input under every variable assignment. *)
Theorem converters_preserve_truth_table (F : Formula) :
  well_formed F = true ->
  preserves_truth_table to_not_and_or F /\
  preserves_truth_table to_not_and F /\
  preserves_truth_table to_implies_not F /\
  preserves_truth_table to_implies_false F.
Proof.
  intros Hwf.
  destruct (to_not_and_or_correct F Hwf) as (G1 & H1 & _ & E1).
  destruct (to_not_and_correct F Hwf) as (G2 & H2 & _ & E2).
  destruct (to_implies_not_correct F Hwf) as (G3 & H3 & _ & E3).
  destruct (to_implies_false_correct F Hwf) as (G4 & H4 & _ & E4).
  repeat split; eapply preserves_of_equivalent; eassumption.
Qed.

Lemma converters_preserve_truth_table_witness :
  preserves_truth_table to_not_and_or
    (Binary "<->" (Leaf "p") (Binary "-|" (Leaf "q") (Leaf "T"))) /\
  preserves_truth_table to_not_and
    (Binary "<->" (Leaf "p") (Binary "-|" (Leaf "q") (Leaf "T"))) /\
  preserves_truth_table to_implies_not
    (Binary "<->" (Leaf "p") (Binary "-|" (Leaf "q") (Leaf "T"))) /\
  preserves_truth_table to_implies_false
    (Binary "<->" (Leaf "p") (Binary "-|" (Leaf "q") (Leaf "T"))).
Proof.
  apply converters_preserve_truth_table. reflexivity.
Defined.

(** C3: for every formula, also one with nand, nor, xor, iff and the
    constants, the result of each converter has its operator and constant
    labels in the basis of the converter, and no leaf but variables and
    constants of the basis; the result of [to_implies_false] never contains
    ['T']. *)
Theorem converters_basis_closure (F : Formula) :
  well_formed F = true ->
  within_basis not_and_or_basis to_not_and_or F /\
  within_basis not_and_basis to_not_and F /\
  within_basis nand_basis to_nand F /\
  within_basis implies_not_basis to_implies_not F /\
  within_basis implies_false_basis to_implies_false F /\
  (forall G, to_implies_false F = Returns G ->
     ("T" ∉ operators G) /\ ("T" ∉ leaves G)).
Proof.
  intros Hwf.
  destruct (to_not_and_or_correct F Hwf) as (G1 & H1 & C1 & _).
  destruct (to_not_and_correct F Hwf) as (G2 & H2 & C2 & _).
  destruct (to_nand_correct F Hwf) as (G3 & H3 & C3).
  destruct (to_implies_not_correct F Hwf) as (G4 & H4 & C4 & _).
  destruct (to_implies_false_correct F Hwf) as (G5 & H5 & C5 & _).
  repeat (split; [eapply within_of_converted; eassumption|]).
  intros G HG. rewrite H5 in HG. injection HG as <-.
  destruct C5 as (_ & Ho & _). unfold implies_false_basis in Ho.
  split; intros HT.
  - apply Ho in HT. set_solver.
  - destruct (leaves_operators _ _ Ho _ HT) as [Hv | Hb].
    + discriminate Hv.
    + set_solver.
Qed.

Lemma converters_basis_closure_witness :
  within_basis not_and_or_basis to_not_and_or
    (Binary "+" (Binary "-&" (Leaf "p") (Leaf "T"))
                (Binary "-|" (Leaf "q") (Leaf "F"))) /\
  within_basis not_and_basis to_not_and
    (Binary "+" (Binary "-&" (Leaf "p") (Leaf "T"))
                (Binary "-|" (Leaf "q") (Leaf "F"))) /\
  within_basis nand_basis to_nand
    (Binary "+" (Binary "-&" (Leaf "p") (Leaf "T"))
                (Binary "-|" (Leaf "q") (Leaf "F"))) /\
  within_basis implies_not_basis to_implies_not
    (Binary "+" (Binary "-&" (Leaf "p") (Leaf "T"))
                (Binary "-|" (Leaf "q") (Leaf "F"))) /\
  within_basis implies_false_basis to_implies_false
    (Binary "+" (Binary "-&" (Leaf "p") (Leaf "T"))
                (Binary "-|" (Leaf "q") (Leaf "F"))) /\
  (forall G,
     to_implies_false
       (Binary "+" (Binary "-&" (Leaf "p") (Leaf "T"))
                   (Binary "-|" (Leaf "q") (Leaf "F"))) = Returns G ->
     ("T" ∉ operators G) /\ ("T" ∉ leaves G)).
Proof.
  apply converters_basis_closure. reflexivity.
Defined.

(** C4: [to_nand] maps the constant ['T'] to the formula
    [(p -& p) -& (p -& p)] and the constant ['F'] to [p -& (p -& p)], for
    the variable named ['p']. *)
Theorem to_nand_constants :
  to_nand (Leaf "T") =
    Returns (Binary "-&" (Binary "-&" (Leaf "p") (Leaf "p"))
                         (Binary "-&" (Leaf "p") (Leaf "p"))) /\
  to_nand (Leaf "F") =
    Returns (Binary "-&" (Leaf "p") (Binary "-&" (Leaf "p") (Leaf "p"))).
Proof. split; reflexivity. Qed.

Lemma twice_Returns convert (F G H : Formula) :
  convert F = Returns G -> convert G = Returns H ->
  twice convert F = Returns H.
Proof. intros HG HH. unfold twice. rewrite HG. exact HH. Qed.

(** What holds of a second conversion: the result stays in the basis for
    all five converters, and keeps the truth table of the input for the
    four converters that keep it in the first place. *)
Lemma twice_keeps (F : Formula) :
  well_formed F = true ->
  (within_basis not_and_or_basis (twice to_not_and_or) F /\
   within_basis not_and_basis (twice to_not_and) F /\
   within_basis nand_basis (twice to_nand) F /\
   within_basis implies_not_basis (twice to_implies_not) F /\
   within_basis implies_false_basis (twice to_implies_false) F) /\
  (preserves_truth_table (twice to_not_and_or) F /\
   preserves_truth_table (twice to_not_and) F /\
   preserves_truth_table (twice to_implies_not) F /\
   preserves_truth_table (twice to_implies_false) F).
Proof.
  intros Hwf.
  destruct (to_not_and_or_correct F Hwf) as (G1 & H1 & C1 & E1).
  destruct (to_not_and_correct F Hwf) as (G2 & H2 & C2 & E2).
  destruct (to_nand_correct F Hwf) as (G3 & H3 & C3).
  destruct (to_implies_not_correct F Hwf) as (G4 & H4 & C4 & E4).
  destruct (to_implies_false_correct F Hwf) as (G5 & H5 & C5 & E5).
  pose proof (to_not_and_or_basis G1 (proj1 C1) (proj1 (proj2 C1))) as I1.
  pose proof (to_not_and_basis G2 (proj1 C2) (proj1 (proj2 C2))) as I2.
  pose proof (to_nand_basis G3 (proj1 C3) (proj1 (proj2 C3))) as I3.
  pose proof (to_implies_not_basis G4 (proj1 C4) (proj1 (proj2 C4))) as I4.
  pose proof (to_implies_false_basis G5 (proj1 C5) (proj1 (proj2 C5))) as I5.
  split.
  - repeat split;
      (eapply within_of_converted; [eapply twice_Returns|]; eassumption).
  - repeat split;
      (eapply preserves_of_equivalent;
       [|eapply twice_Returns|]; eassumption).
Qed.

(** C5 (the code departs from it): converting ['T'] twice with [to_nand]
    gives a formula that is false when [p] is false, so a second conversion
    is not equivalent to the input for this converter. *)
Theorem to_nand_twice_changes_truth_table :
  ~ preserves_truth_table (twice to_nand) (Leaf "T").
Proof.
  intros (G & HG & He).
  vm_compute in HG. injection HG as <-.
  destruct (He (fun _ => false)) as (b & H1 & H2).
  vm_compute in H1, H2. congruence.
Qed.

(** C6: [to_not_and] replaces a disjunction by the negation of the
    conjunction of the negations of its converted parts; on [p | q] the
    result is [~(~p & ~q)]. *)
Theorem to_not_and_De_Morgan :
  (forall A B : Formula,
     well_formed A = true -> well_formed B = true ->
     exists a b,
       to_not_and A = Returns a /\ to_not_and B = Returns b /\
       to_not_and (Binary "|" A B) =
         Returns (Unary "~" (Binary "&" (Unary "~" a) (Unary "~" b)))) /\
  to_not_and (Binary "|" (Leaf "p") (Leaf "q")) =
    Returns (Unary "~" (Binary "&" (Unary "~" (Leaf "p"))
                                   (Unary "~" (Leaf "q")))).
Proof.
  split; [|reflexivity].
  intros A B HA HB.
  destruct (to_not_and_returns A HA) as [a Ha].
  destruct (to_not_and_returns B HB) as [b Hb].
  exists a, b. repeat split; try assumption.
  unfold to_not_and at 1. rewrite call_budget_Binary, to_not_and_rec_or.
  rewrite !to_not_and_budget by (assumption || lia).
  rewrite Ha, Hb. reflexivity.
Qed.

Lemma to_not_and_De_Morgan_witness :
  exists a b,
    to_not_and (Binary "+" (Leaf "p") (Leaf "q")) = Returns a /\
    to_not_and (Leaf "T") = Returns b /\
    to_not_and (Binary "|" (Binary "+" (Leaf "p") (Leaf "q")) (Leaf "T")) =
      Returns (Unary "~" (Binary "&" (Unary "~" a) (Unary "~" b))).
Proof.
  apply (proj1 to_not_and_De_Morgan); reflexivity.
Defined.

(** C7: [to_nand] converts a nor by converting the disjunction of the same
    parts and negating the result with the rule for not. *)
Theorem to_nand_nor (A B : Formula) :
  well_formed A = true -> well_formed B = true ->
  exists o,
    to_nand (Binary "|" A B) = Returns o /\
    to_nand (Binary "-|" A B) = Returns (Binary "-&" o o) /\
    to_nand (Unary "~" (Binary "|" A B)) = Returns (Binary "-&" o o).
Proof.
  intros HA HB.
  assert (HO : well_formed (Binary "|" A B) = true) by wf_solve.
  destruct (to_nand_returns A HA) as [a Ha].
  destruct (to_nand_returns B HB) as [b Hb].
  destruct (to_nand_returns _ HO) as [o Ho].
  exists o. split; [exact Ho|]. split.
  - unfold to_nand at 1. rewrite call_budget_Binary, to_nand_rec_nor.
    rewrite !to_nand_budget
      by (assumption || rewrite ?height_Binary; lia).
    rewrite Ha, Hb, Ho. reflexivity.
  - unfold to_nand at 1. unfold call_budget. rewrite height_Unary.
    replace (7 * S (height (Binary "|" A B)))
      with (S (6 + 7 * height (Binary "|" A B))) by lia.
    rewrite to_nand_rec_not, to_nand_budget by (assumption || lia).
    rewrite Ho. reflexivity.
Qed.

Lemma to_nand_nor_witness :
  exists o,
    to_nand (Binary "|" (Leaf "p") (Unary "~" (Leaf "q"))) = Returns o /\
    to_nand (Binary "-|" (Leaf "p") (Unary "~" (Leaf "q")))
      = Returns (Binary "-&" o o) /\
    to_nand (Unary "~" (Binary "|" (Leaf "p") (Unary "~" (Leaf "q"))))
      = Returns (Binary "-&" o o).
Proof.
  apply to_nand_nor; reflexivity.
Defined.

(** C8: on a formula whose labels are all of the eleven recognised kinds,
    each of the five converters returns a formula; in particular
    [to_not_and_or] does not reach its end without a [return]. *)
Theorem converters_total (F : Formula) :
  well_formed F = true ->
  (exists G, to_not_and_or F = Returns G) /\
  (exists G, to_not_and F = Returns G) /\
  (exists G, to_nand F = Returns G) /\
  (exists G, to_implies_not F = Returns G) /\
  (exists G, to_implies_false F = Returns G).
Proof.
  intros Hwf.
  split; [now apply to_not_and_or_returns|].
  split; [now apply to_not_and_returns|].
  split; [now apply to_nand_returns|].
  split; [now apply to_implies_not_returns|].
  now apply to_implies_false_returns.
Qed.

Lemma converters_total_witness :
  (exists G, to_not_and_or (Binary "<->" (Leaf "x1") (Leaf "F")) = Returns G) /\
  (exists G, to_not_and (Binary "<->" (Leaf "x1") (Leaf "F")) = Returns G) /\
  (exists G, to_nand (Binary "<->" (Leaf "x1") (Leaf "F")) = Returns G) /\
  (exists G, to_implies_not (Binary "<->" (Leaf "x1") (Leaf "F")) = Returns G) /\
  (exists G, to_implies_false (Binary "<->" (Leaf "x1") (Leaf "F")) = Returns G).
Proof.
  apply converters_total. reflexivity.
Defined.

(** C9: each of the five converters, applied to its own result, returns
    that result unchanged; each is the identity on the formulas of its own
    basis. *)
Theorem converters_idempotent :
  (forall F : Formula,
     well_formed F = true ->
     idempotent_on to_not_and_or F /\
     idempotent_on to_not_and F /\
     idempotent_on to_nand F /\
     idempotent_on to_implies_not F /\
     idempotent_on to_implies_false F) /\
  identity_on not_and_or_basis to_not_and_or /\
  identity_on not_and_basis to_not_and /\
  identity_on nand_basis to_nand /\
  identity_on implies_not_basis to_implies_not /\
  identity_on implies_false_basis to_implies_false.
Proof.
  split.
  - intros F Hwf.
    destruct (to_not_and_or_correct F Hwf) as (G1 & H1 & (W1 & O1 & _) & _).
    destruct (to_not_and_correct F Hwf) as (G2 & H2 & (W2 & O2 & _) & _).
    destruct (to_nand_correct F Hwf) as (G3 & H3 & (W3 & O3 & _)).
    destruct (to_implies_not_correct F Hwf) as (G4 & H4 & (W4 & O4 & _) & _).
    destruct (to_implies_false_correct F Hwf)
      as (G5 & H5 & (W5 & O5 & _) & _).
    split; [exists G1; split; [exact H1|now apply to_not_and_or_basis]|].
    split; [exists G2; split; [exact H2|now apply to_not_and_basis]|].
    split; [exists G3; split; [exact H3|now apply to_nand_basis]|].
    split; [exists G4; split; [exact H4|now apply to_implies_not_basis]|].
    exists G5; split; [exact H5|now apply to_implies_false_basis].
  - split; [exact to_not_and_or_basis|].
    split; [exact to_not_and_basis|].
    split; [exact to_nand_basis|].
    split; [exact to_implies_not_basis|].
    exact to_implies_false_basis.
Qed.

Lemma converters_idempotent_witness :
  idempotent_on to_not_and_or (Binary "+" (Leaf "p") (Unary "~" (Leaf "T"))) /\
  idempotent_on to_not_and (Binary "+" (Leaf "p") (Unary "~" (Leaf "T"))) /\
  idempotent_on to_nand (Binary "+" (Leaf "p") (Unary "~" (Leaf "T"))) /\
  idempotent_on to_implies_not (Binary "+" (Leaf "p") (Unary "~" (Leaf "T"))) /\
  idempotent_on to_implies_false (Binary "+" (Leaf "p") (Unary "~" (Leaf "T"))).
Proof.
  apply (proj1 converters_idempotent). reflexivity.
Defined.

(** C10: the variables of the result of a converter are variables of the
    input or the name ['p']; the result of [to_implies_false] has no
    variable that the input does not have. *)
Theorem converters_variables (F : Formula) :
  well_formed F = true ->
  variables_within {[ "p" ]} to_not_and_or F /\
  variables_within {[ "p" ]} to_not_and F /\
  variables_within {[ "p" ]} to_nand F /\
  variables_within {[ "p" ]} to_implies_not F /\
  (exists G, to_implies_false F = Returns G /\ variables G ⊆ variables F).
Proof.
  intros Hwf.
  destruct (to_not_and_or_correct F Hwf) as (G1 & H1 & (_ & _ & V1) & _).
  destruct (to_not_and_correct F Hwf) as (G2 & H2 & (_ & _ & V2) & _).
  destruct (to_nand_correct F Hwf) as (G3 & H3 & (_ & _ & V3)).
  destruct (to_implies_not_correct F Hwf) as (G4 & H4 & (_ & _ & V4) & _).
  destruct (to_implies_false_correct F Hwf) as (G5 & H5 & (_ & _ & V5) & _).
  split; [exists G1; auto|].
  split; [exists G2; auto|].
  split; [exists G3; auto|].
  split; [exists G4; auto|].
  exists G5. split; [exact H5|].
  clear - V5. set_solver.
Qed.

Lemma converters_variables_witness :
  variables_within {[ "p" ]} to_not_and_or (Binary "-&" (Leaf "q") (Leaf "T")) /\
  variables_within {[ "p" ]} to_not_and (Binary "-&" (Leaf "q") (Leaf "T")) /\
  variables_within {[ "p" ]} to_nand (Binary "-&" (Leaf "q") (Leaf "T")) /\
  variables_within {[ "p" ]} to_implies_not (Binary "-&" (Leaf "q") (Leaf "T")) /\
  (exists G, to_implies_false (Binary "-&" (Leaf "q") (Leaf "T")) = Returns G /\
             variables G ⊆ variables (Binary "-&" (Leaf "q") (Leaf "T"))).
Proof.
  apply converters_variables. reflexivity.
Defined.

(** The name ['p'] does appear where the input has a constant and no ['p']:
    the bound of C10 cannot do without it. *)
Lemma to_not_and_or_fresh_p :
  exists G, to_not_and_or (Binary "&" (Leaf "q") (Leaf "T")) = Returns G /\
            "p" ∈ variables G /\
            "p" ∉ variables (Binary "&" (Leaf "q") (Leaf "T")).
Proof.
  eexists. split; [reflexivity|]. split.
  - sets_unfold. set_solver.
  - sets_unfold. change (variables (Leaf "q")) with ({[ "q" ]} : gset string).
    set_solver.
Qed.

(** ** The truth function that [to_nand] computes *)

(** On a formula without ['T'], ['F'] and ['->'] the reading of [to_nand]
    is the truth value of the formula. *)
Lemma to_nand_truth_evaluate (F : Formula) (model : Model) :
  operators F ## nand_miscoded ->
  to_nand_truth F model = evaluate F model.
Proof.
  induction F as [r | r f IHf | r f IHf s IHs]; intros Ho.
  - simpl. destruct (is_variable r) eqn:Hr; [reflexivity|].
    unfold operators in Ho. rewrite Hr in Ho. unfold nand_miscoded in Ho.
    unfold is_constant.
    destruct (String.eqb_spec r "T") as [-> | HT]; [exfalso; set_solver|].
    destruct (String.eqb_spec r "F") as [-> | HF]; [exfalso; set_solver|].
    reflexivity.
  - simpl. rewrite IHf; [reflexivity|].
    rewrite operators_Unary in Ho. clear - Ho. set_solver.
  - simpl. rewrite operators_Binary in Ho.
    rewrite IHf, IHs by (clear - Ho; set_solver).
    destruct (String.eqb_spec r "->") as [-> | Hr].
    + exfalso. clear - Ho. unfold nand_miscoded in Ho. set_solver.
    + reflexivity.
Qed.

Ltac truth_solve :=
  let m := fresh "m" in
  intros m;
  repeat match goal with
  | Ho : operators ?a ⊆ nand_basis |- _ =>
      let T := fresh "T" in
      assert (T : to_nand_truth a m = evaluate a m)
        by (apply to_nand_truth_evaluate; clear - Ho;
            unfold nand_basis, nand_miscoded in *; set_solver);
      clear Ho
  end;
  repeat match goal with
  | He : forall model : Model, _ = evaluate _ model |- _ =>
      specialize (He m); simpl in He; unfold evaluate_binary in He;
      simpl in He
  end;
  repeat match goal with
  | T : to_nand_truth ?a m = evaluate ?a m, He : context [to_nand_truth ?a m]
    |- _ => rewrite T in He
  end;
  repeat match goal with
  | T : to_nand_truth ?a m = evaluate ?a m |- _ => clear T
  end;
  simpl; unfold evaluate_binary; simpl;
  repeat match goal with
  | He : _ = evaluate _ m |- _ => rewrite <- He; clear He
  end;
  repeat match goal with
  | |- context [to_nand_truth ?f m] => destruct (to_nand_truth f m) as [[]|]
  | |- context [m ?x] => destruct (m x)
  end;
  reflexivity.

Ltac truth_IH IH :=
  repeat match goal with
  | Hc : to_nand_rec _ ?X = Returns ?a |- _ =>
      let E := fresh "E" in
      assert (E : forall model : Model,
                    to_nand_truth X model = evaluate a model)
        by (apply IH; [wf_solve|exact Hc]);
      clear Hc
  end.

Lemma to_nand_rec_truth (fuel : nat) :
  forall F, well_formed F = true ->
  forall G, to_nand_rec fuel F = Returns G ->
  forall model : Model, to_nand_truth F model = evaluate G model.
Proof.
  induction fuel as [|fuel IH]; [discriminate|].
  refine (well_formed_ind _ _ _ _ _ _).
  - intros x Hx G H. simpl in H. rewrite Hx in H. injection H as <-.
    intros m. simpl. rewrite Hx. reflexivity.
  - intros G H. simpl in H. injection H as <-. truth_solve.
  - intros G H. simpl in H. injection H as <-. truth_solve.
  - intros f Hf _ G H. simpl in H. bind_inv H. injection H as <-.
    truth_IH IH. truth_solve.
  - intros r f s Hr Hf Hs _ _ G H.
    binary_cases Hr; simpl in H; bind_inv H; try injection H as <-;
      nand_facts; truth_IH IH; truth_solve.
Qed.

(** X2: [to_nand] returns on every formula a formula whose truth value is the
    one of the input read with ['T'] as the variable [p], ['F'] as true and
    every implication as its converse. *)
Theorem to_nand_truth_function (F : Formula) :
  well_formed F = true ->
  exists G, to_nand F = Returns G /\
    forall model : Model,
      exists b, to_nand_truth F model = Some b /\ evaluate G model = Some b.
Proof.
  intros Hwf.
  destruct (to_nand_correct F Hwf) as (G & HG & (WG & _)).
  exists G. split; [exact HG|]. intros model.
  destruct (evaluate_well_formed G model WG) as [b Hb].
  exists b. split; [|exact Hb].
  rewrite (to_nand_rec_truth _ F Hwf G HG model). exact Hb.
Qed.

Lemma to_nand_truth_function_witness :
  exists G,
    to_nand (Binary "->" (Leaf "T") (Binary "+" (Leaf "q") (Leaf "F")))
      = Returns G /\
    forall model : Model,
      exists b,
        to_nand_truth
          (Binary "->" (Leaf "T") (Binary "+" (Leaf "q") (Leaf "F"))) model
          = Some b /\
        evaluate G model = Some b.
Proof.
  apply to_nand_truth_function. reflexivity.
Defined.

(** X1: On formulas without ['T'], ['F'] and ['->'], [to_nand] returns a
    formula with the truth table of its input. *)
Theorem to_nand_keeps_truth_table (F : Formula) :
  well_formed F = true -> operators F ## nand_miscoded ->
  preserves_truth_table to_nand F.
Proof.
  intros Hwf Ho.
  destruct (to_nand_returns F Hwf) as [G HG].
  eapply preserves_of_equivalent; [exact Hwf|exact HG|].
  exact (to_nand_rec_equivalent _ F Hwf Ho G HG).
Qed.

Lemma to_nand_keeps_truth_table_witness :
  preserves_truth_table to_nand
    (Binary "<->" (Leaf "q") (Binary "-|" (Leaf "r") (Unary "~" (Leaf "q")))).
Proof.
  apply to_nand_keeps_truth_table; [reflexivity|compute_done].
Defined.

(** ** The variables of a result, exactly *)

Lemma has_constant_Unary r f : has_constant (Unary r f) = has_constant f.
Proof. reflexivity. Qed.

Lemma has_constant_Binary r f s :
  has_constant (Binary r f s) = has_constant f || has_constant s.
Proof. reflexivity. Qed.

Lemma has_constant_operators (F : Formula) :
  has_constant F = true -> "T" ∈ operators F \/ "F" ∈ operators F.
Proof.
  induction F as [r | r f IHf | r f IHf s IHs]; simpl has_constant; intros H.
  - apply andb_true_iff in H as [Hv Hc]. apply negb_true_iff in Hv.
    unfold operators. rewrite Hv. unfold is_constant in Hc.
    apply orb_true_iff in Hc as [Hc | Hc]; apply String.eqb_eq in Hc;
      subst r; [left | right]; set_solver.
  - rewrite operators_Unary. destruct (IHf H); [left | right]; set_solver.
  - rewrite operators_Binary. apply orb_true_iff in H as [H | H];
      [destruct (IHf H) | destruct (IHs H)]; [left | right | left | right];
      set_solver.
Qed.

Lemma has_constant_nand_basis (G : Formula) :
  operators G ⊆ nand_basis -> has_constant G = false.
Proof.
  intros Ho. destruct (has_constant G) eqn:H; [|reflexivity].
  exfalso. apply has_constant_operators in H.
  unfold nand_basis in Ho. clear - Ho H. set_solver.
Qed.

Lemma has_constant_p : has_constant (Leaf "p") = false.
Proof. reflexivity. Qed.

Lemma has_constant_T : has_constant (Leaf "T") = true.
Proof. reflexivity. Qed.

Lemma has_constant_F : has_constant (Leaf "F") = true.
Proof. reflexivity. Qed.

Ltac exact_solve :=
  repeat match goal with
  | Ho : operators ?a ⊆ nand_basis |- _ =>
      pose proof (has_constant_nand_basis a Ho); clear Ho
  end;
  repeat match goal with
  | H : forall F : Formula, _ |- _ => clear H
  | H : well_formed _ = _ |- _ => clear H
  | H : operators _ ⊆ _ |- _ => clear H
  end;
  unfold fresh_for in *; repeat progress sets_unfold;
  repeat match goal with
  | H : variables ?a = _ |- _ => rewrite ?H in *; clear H
  end;
  repeat progress
    rewrite ?has_constant_Unary, ?has_constant_Binary, ?has_constant_p,
      ?has_constant_T, ?has_constant_F in *;
  repeat match goal with
  | Hc : has_constant ?a = false |- _ => rewrite ?Hc in *; clear Hc
  end;
  repeat match goal with
  | |- context [has_constant ?f] => destruct (has_constant f)
  | H : context [has_constant ?f] |- _ => destruct (has_constant f)
  end;
  cbn [orb] in *; set_solver.

Ltac exact_variable Hx :=
  unfold fresh_for; simpl; rewrite Hx; simpl; set_solver.

Lemma to_not_and_or_rec_variables (fuel : nat) :
  forall F, well_formed F = true ->
  forall G, to_not_and_or_rec fuel F = Returns G ->
    variables G = variables F ∪ fresh_for F.
Proof.
  induction fuel as [|fuel IH]; [discriminate|].
  refine (well_formed_ind _ _ _ _ _ _).
  - intros x Hx G H. simpl in H. rewrite Hx in H. injection H as <-.
    exact_variable Hx.
  - intros G H. simpl in H. injection H as <-. exact_solve.
  - intros G H. simpl in H. injection H as <-. exact_solve.
  - intros f Hf _ G H. simpl in H. bind_inv H. injection H as <-.
    use_IH IH. exact_solve.
  - intros r f s Hr Hf Hs _ _ G H. binary_cases Hr; simpl in H; bind_inv H.
    all: try injection H as <-; use_IH IH; exact_solve.
Qed.

Lemma to_not_and_rec_variables (fuel : nat) :
  forall F, well_formed F = true ->
  forall G, to_not_and_rec fuel F = Returns G ->
    variables G = variables F ∪ fresh_for F.
Proof.
  induction fuel as [|fuel IH]; [discriminate|].
  refine (well_formed_ind _ _ _ _ _ _).
  - intros x Hx G H. simpl in H. rewrite Hx in H. injection H as <-.
    exact_variable Hx.
  - intros G H. simpl in H. injection H as <-. exact_solve.
  - intros G H. simpl in H. injection H as <-. exact_solve.
  - intros f Hf _ G H. simpl in H. bind_inv H. injection H as <-.
    use_IH IH. exact_solve.
  - intros r f s Hr Hf Hs _ _ G H. binary_cases Hr; simpl in H; bind_inv H.
    all: try injection H as <-; use_IH IH; exact_solve.
Qed.

Lemma to_nand_rec_variables (fuel : nat) :
  forall F, well_formed F = true ->
  forall G, to_nand_rec fuel F = Returns G ->
    variables G = variables F ∪ fresh_for F.
Proof.
  induction fuel as [|fuel IH]; [discriminate|].
  refine (well_formed_ind _ _ _ _ _ _).
  - intros x Hx G H. simpl in H. rewrite Hx in H. injection H as <-.
    exact_variable Hx.
  - intros G H. simpl in H. injection H as <-. exact_solve.
  - intros G H. simpl in H. injection H as <-. exact_solve.
  - intros f Hf _ G H. simpl in H. bind_inv H. injection H as <-.
    use_IH IH. exact_solve.
  - intros r f s Hr Hf Hs _ _ G H. binary_cases Hr; simpl in H; bind_inv H.
    all: try injection H as <-; nand_facts; use_IH IH; exact_solve.
Qed.

Lemma to_implies_not_rec_variables (fuel : nat) :
  forall F, well_formed F = true ->
  forall G, to_implies_not_rec fuel F = Returns G ->
    variables G = variables F ∪ fresh_for F.
Proof.
  induction fuel as [|fuel IH]; [discriminate|].
  refine (well_formed_ind _ _ _ _ _ _).
  - intros x Hx G H. simpl in H. rewrite Hx in H. injection H as <-.
    exact_variable Hx.
  - intros G H. simpl in H. injection H as <-. exact_solve.
  - intros G H. simpl in H. injection H as <-. exact_solve.
  - intros f Hf _ G H. simpl in H. bind_inv H. injection H as <-.
    use_IH IH. exact_solve.
  - intros r f s Hr Hf Hs _ _ G H. binary_cases Hr; simpl in H; bind_inv H.
    all: try injection H as <-; use_IH IH; exact_solve.
Qed.

Lemma to_implies_false_rec_variables (fuel : nat) :
  forall F, well_formed F = true ->
  forall G, to_implies_false_rec fuel F = Returns G ->
    variables G = variables F.
Proof.
  induction fuel as [|fuel IH]; [discriminate|].
  refine (well_formed_ind _ _ _ _ _ _).
  - intros x Hx G H. simpl in H. rewrite Hx in H. injection H as <-.
    exact_variable Hx.
  - intros G H. simpl in H. injection H as <-. exact_solve.
  - intros G H. simpl in H. injection H as <-. exact_solve.
  - intros f Hf _ G H. simpl in H. bind_inv H. injection H as <-.
    use_IH IH. exact_solve.
  - intros r f s Hr Hf Hs _ _ G H. binary_cases Hr; simpl in H; bind_inv H.
    all: try injection H as <-; use_IH IH; exact_solve.
Qed.

(** X3: The variables of a result are exactly those of the input, together
    with ['p'] when the input has a constant; [to_implies_false], which
    keeps ['F'] and writes ['T'] as [F -> F], adds none. *)
Theorem converters_variables_exact (F : Formula) :
  well_formed F = true ->
  (exists G, to_not_and_or F = Returns G /\
             variables G = variables F ∪ fresh_for F) /\
  (exists G, to_not_and F = Returns G /\
             variables G = variables F ∪ fresh_for F) /\
  (exists G, to_nand F = Returns G /\
             variables G = variables F ∪ fresh_for F) /\
  (exists G, to_implies_not F = Returns G /\
             variables G = variables F ∪ fresh_for F) /\
  (exists G, to_implies_false F = Returns G /\ variables G = variables F).
Proof.
  intros Hwf.
  destruct (to_not_and_or_returns F Hwf) as [G1 H1].
  destruct (to_not_and_returns F Hwf) as [G2 H2].
  destruct (to_nand_returns F Hwf) as [G3 H3].
  destruct (to_implies_not_returns F Hwf) as [G4 H4].
  destruct (to_implies_false_returns F Hwf) as [G5 H5].
  split; [exists G1; split;
            [exact H1|exact (to_not_and_or_rec_variables _ F Hwf G1 H1)]|].
  split; [exists G2; split;
            [exact H2|exact (to_not_and_rec_variables _ F Hwf G2 H2)]|].
  split; [exists G3; split;
            [exact H3|exact (to_nand_rec_variables _ F Hwf G3 H3)]|].
  split; [exists G4; split;
            [exact H4|exact (to_implies_not_rec_variables _ F Hwf G4 H4)]|].
  exists G5; split;
    [exact H5|exact (to_implies_false_rec_variables _ F Hwf G5 H5)].
Qed.

Lemma converters_variables_exact_witness :
  (exists G, to_not_and_or (Binary "+" (Leaf "q") (Leaf "T")) = Returns G /\
             variables G = variables (Binary "+" (Leaf "q") (Leaf "T"))
                           ∪ fresh_for (Binary "+" (Leaf "q") (Leaf "T"))) /\
  (exists G, to_not_and (Binary "+" (Leaf "q") (Leaf "T")) = Returns G /\
             variables G = variables (Binary "+" (Leaf "q") (Leaf "T"))
                           ∪ fresh_for (Binary "+" (Leaf "q") (Leaf "T"))) /\
  (exists G, to_nand (Binary "+" (Leaf "q") (Leaf "T")) = Returns G /\
             variables G = variables (Binary "+" (Leaf "q") (Leaf "T"))
                           ∪ fresh_for (Binary "+" (Leaf "q") (Leaf "T"))) /\
  (exists G, to_implies_not (Binary "+" (Leaf "q") (Leaf "T")) = Returns G /\
             variables G = variables (Binary "+" (Leaf "q") (Leaf "T"))
                           ∪ fresh_for (Binary "+" (Leaf "q") (Leaf "T"))) /\
  (exists G, to_implies_false (Binary "+" (Leaf "q") (Leaf "T")) = Returns G /\
             variables G = variables (Binary "+" (Leaf "q") (Leaf "T"))).
Proof.
  apply converters_variables_exact. reflexivity.
Defined.

(** ** The depth of a result *)

Lemma height_positive (F : Formula) : 1 <= height F.
Proof. destruct F; simpl; lia. Qed.

Lemma to_not_and_or_rec_height :
  forall F, well_formed F = true ->
  exists G, (forall n, 6 * height F <= n -> to_not_and_or_rec n F = Returns G) /\
            height F <= height G <= 3 * height F.
Proof.
  refine (well_formed_ind _ _ _ _ _ _).
  - intros x Hx. exists (Leaf x). split; [|rewrite !height_Leaf; lia].
    intros [|n] Hn.
    + rewrite height_Leaf in Hn. lia.
    + simpl. rewrite Hx. reflexivity.
  - eexists. split.
    + intros [|n] Hn; [rewrite height_Leaf in Hn; lia|]. reflexivity.
    + cbn [height]. lia.
  - eexists. split.
    + intros [|n] Hn; [rewrite height_Leaf in Hn; lia|]. reflexivity.
    + cbn [height]. lia.
  - intros f Hf (G1 & H1 & B1).
    pose proof (height_positive f) as P1. eexists. split.
    + intros n Hn. rewrite height_Unary in Hn. calls H1 H1.
    + cbn [height]. lia.
  - intros r f s Hr Hf Hs (G1 & H1 & B1) (G2 & H2 & B2).
    pose proof (height_positive f) as P1.
    pose proof (height_positive s) as P2.
    binary_cases Hr; eexists;
      (split;
       [ intros n Hn; rewrite height_Binary in Hn;
         repeat call H1 H2; reflexivity
       | cbn [height]; lia ]).
Qed.

Lemma to_not_and_rec_height :
  forall F, well_formed F = true ->
  exists G, (forall n, 6 * height F <= n -> to_not_and_rec n F = Returns G) /\
            height F <= height G <= 5 * height F.
Proof.
  refine (well_formed_ind _ _ _ _ _ _).
  - intros x Hx. exists (Leaf x). split; [|rewrite !height_Leaf; lia].
    intros [|n] Hn.
    + rewrite height_Leaf in Hn. lia.
    + simpl. rewrite Hx. reflexivity.
  - eexists. split.
    + intros [|n] Hn; [rewrite height_Leaf in Hn; lia|]. reflexivity.
    + cbn [height]. lia.
  - eexists. split.
    + intros [|n] Hn; [rewrite height_Leaf in Hn; lia|]. reflexivity.
    + cbn [height]. lia.
  - intros f Hf (G1 & H1 & B1).
    pose proof (height_positive f) as P1. eexists. split.
    + intros n Hn. rewrite height_Unary in Hn. calls H1 H1.
    + cbn [height]. lia.
  - intros r f s Hr Hf Hs (G1 & H1 & B1) (G2 & H2 & B2).
    pose proof (height_positive f) as P1.
    pose proof (height_positive s) as P2.
    binary_cases Hr; eexists;
      (split;
       [ intros n Hn; rewrite height_Binary in Hn;
         repeat call H1 H2; reflexivity
       | cbn [height]; lia ]).
Qed.

Lemma to_nand_rec_height :
  forall F, well_formed F = true ->
  exists G, (forall n, 6 * height F <= n -> to_nand_rec n F = Returns G) /\
            height F <= height G <= 6 * height F.
Proof.
  refine (well_formed_ind _ _ _ _ _ _).
  - intros x Hx. exists (Leaf x). split; [|rewrite !height_Leaf; lia].
    intros [|n] Hn.
    + rewrite height_Leaf in Hn. lia.
    + simpl. rewrite Hx. reflexivity.
  - eexists. split.
    + intros [|n] Hn; [rewrite height_Leaf in Hn; lia|]. reflexivity.
    + cbn [height]. lia.
  - eexists. split.
    + intros [|n] Hn; [rewrite height_Leaf in Hn; lia|]. reflexivity.
    + cbn [height]. lia.
  - intros f Hf (G1 & H1 & B1).
    pose proof (height_positive f) as P1. eexists. split.
    + intros n Hn. rewrite height_Unary in Hn. calls H1 H1.
    + cbn [height]. lia.
  - intros r f s Hr Hf Hs (G1 & H1 & B1) (G2 & H2 & B2).
    pose proof (height_positive f) as P1.
    pose proof (height_positive s) as P2.
    destruct (to_nand_rec_sound _ f Hf G1 (H1 _ (Nat.le_refl _)))
      as (W1 & O1 & _).
    destruct (to_nand_rec_sound _ s Hs G2 (H2 _ (Nat.le_refl _)))
      as (W2 & O2 & _).
    pose proof (to_nand_rec_basis G1 W1 O1) as K1.
    pose proof (to_nand_rec_basis G2 W2 O2) as K2.
    binary_cases Hr; eexists;
      (split;
       [ intros n Hn; rewrite height_Binary in Hn;
         repeat (call H1 H2; rewrite ?K1, ?K2 by lia; simpl); reflexivity
       | cbn [height]; lia ]).
Qed.

Lemma to_implies_not_rec_height :
  forall F, well_formed F = true ->
  exists G, (forall n, 6 * height F <= n -> to_implies_not_rec n F = Returns G) /\
            height F <= height G <= 6 * height F.
Proof.
  refine (well_formed_ind _ _ _ _ _ _).
  - intros x Hx. exists (Leaf x). split; [|rewrite !height_Leaf; lia].
    intros [|n] Hn.
    + rewrite height_Leaf in Hn. lia.
    + simpl. rewrite Hx. reflexivity.
  - eexists. split.
    + intros [|n] Hn; [rewrite height_Leaf in Hn; lia|]. reflexivity.
    + cbn [height]. lia.
  - eexists. split.
    + intros [|n] Hn; [rewrite height_Leaf in Hn; lia|]. reflexivity.
    + cbn [height]. lia.
  - intros f Hf (G1 & H1 & B1).
    pose proof (height_positive f) as P1. eexists. split.
    + intros n Hn. rewrite height_Unary in Hn. calls H1 H1.
    + cbn [height]. lia.
  - intros r f s Hr Hf Hs (G1 & H1 & B1) (G2 & H2 & B2).
    pose proof (height_positive f) as P1.
    pose proof (height_positive s) as P2.
    binary_cases Hr; eexists;
      (split;
       [ intros n Hn; rewrite height_Binary in Hn;
         repeat call H1 H2; reflexivity
       | cbn [height]; lia ]).
Qed.

Lemma to_implies_false_rec_height :
  forall F, well_formed F = true ->
  exists G, (forall n, 6 * height F <= n -> to_implies_false_rec n F = Returns G) /\
            height F <= height G <= 6 * height F.
Proof.
  refine (well_formed_ind _ _ _ _ _ _).
  - intros x Hx. exists (Leaf x). split; [|rewrite !height_Leaf; lia].
    intros [|n] Hn.
    + rewrite height_Leaf in Hn. lia.
    + simpl. rewrite Hx. reflexivity.
  - eexists. split.
    + intros [|n] Hn; [rewrite height_Leaf in Hn; lia|]. reflexivity.
    + cbn [height]. lia.
  - eexists. split.
    + intros [|n] Hn; [rewrite height_Leaf in Hn; lia|]. reflexivity.
    + cbn [height]. lia.
  - intros f Hf (G1 & H1 & B1).
    pose proof (height_positive f) as P1. eexists. split.
    + intros n Hn. rewrite height_Unary in Hn. calls H1 H1.
    + cbn [height]. lia.
  - intros r f s Hr Hf Hs (G1 & H1 & B1) (G2 & H2 & B2).
    pose proof (height_positive f) as P1.
    pose proof (height_positive s) as P2.
    binary_cases Hr; eexists;
      (split;
       [ intros n Hn; rewrite height_Binary in Hn;
         repeat call H1 H2; reflexivity
       | cbn [height]; lia ]).
Qed.


(** X4: the result of a converter is at least as deep as its input and at
    most a fixed number of times deeper: three times for [to_not_and_or],
    five times for [to_not_and], six times for the other three. *)
Theorem converters_depth (F : Formula) :
  well_formed F = true ->
  (exists G, to_not_and_or F = Returns G /\
             height F <= height G <= 3 * height F) /\
  (exists G, to_not_and F = Returns G /\
             height F <= height G <= 5 * height F) /\
  (exists G, to_nand F = Returns G /\
             height F <= height G <= 6 * height F) /\
  (exists G, to_implies_not F = Returns G /\
             height F <= height G <= 6 * height F) /\
  (exists G, to_implies_false F = Returns G /\
             height F <= height G <= 6 * height F).
Proof.
  intros Hwf.
  destruct (to_not_and_or_rec_height F Hwf) as (G1 & H1 & B1).
  destruct (to_not_and_rec_height F Hwf) as (G2 & H2 & B2).
  destruct (to_nand_rec_height F Hwf) as (G3 & H3 & B3).
  destruct (to_implies_not_rec_height F Hwf) as (G4 & H4 & B4).
  destruct (to_implies_false_rec_height F Hwf) as (G5 & H5 & B5).
  assert (Hn : 6 * height F <= call_budget F) by (unfold call_budget; lia).
  split; [exists G1; split; [exact (H1 _ Hn)|exact B1]|].
  split; [exists G2; split; [exact (H2 _ Hn)|exact B2]|].
  split; [exists G3; split; [exact (H3 _ Hn)|exact B3]|].
  split; [exists G4; split; [exact (H4 _ Hn)|exact B4]|].
  exists G5; split; [exact (H5 _ Hn)|exact B5].
Qed.

Lemma converters_depth_witness :
  (exists G, to_not_and_or (Binary "<->" (Leaf "q") (Leaf "T")) = Returns G /\
             height (Binary "<->" (Leaf "q") (Leaf "T")) <= height G
             <= 3 * height (Binary "<->" (Leaf "q") (Leaf "T"))) /\
  (exists G, to_not_and (Binary "<->" (Leaf "q") (Leaf "T")) = Returns G /\
             height (Binary "<->" (Leaf "q") (Leaf "T")) <= height G
             <= 5 * height (Binary "<->" (Leaf "q") (Leaf "T"))) /\
  (exists G, to_nand (Binary "<->" (Leaf "q") (Leaf "T")) = Returns G /\
             height (Binary "<->" (Leaf "q") (Leaf "T")) <= height G
             <= 6 * height (Binary "<->" (Leaf "q") (Leaf "T"))) /\
  (exists G, to_implies_not (Binary "<->" (Leaf "q") (Leaf "T")) = Returns G /\
             height (Binary "<->" (Leaf "q") (Leaf "T")) <= height G
             <= 6 * height (Binary "<->" (Leaf "q") (Leaf "T"))) /\
  (exists G, to_implies_false (Binary "<->" (Leaf "q") (Leaf "T")) = Returns G /\
             height (Binary "<->" (Leaf "q") (Leaf "T")) <= height G
             <= 6 * height (Binary "<->" (Leaf "q") (Leaf "T"))).
Proof.
  apply converters_depth. reflexivity.
Defined.

(** ** A node with two children and an unknown label *)

Lemma is_binary_false (r : string) :
  is_binary r = false ->
  (r == "&") = false /\ (r == "|") = false /\ (r == "->") = false /\
  (r == "+") = false /\ (r == "<->") = false /\ (r == "-&") = false /\
  (r == "-|") = false.
Proof.
  unfold is_binary. rewrite !orb_false_iff. tauto.
Qed.

Ltac unknown_root Hv Hc Hu Hb H1 H2 :=
  simpl; rewrite Hv, Hc, Hu, H1 by lia; simpl; rewrite H2 by lia; simpl;
  destruct (is_binary_false _ Hb) as (-> & -> & -> & -> & -> & -> & ->);
  reflexivity.

Lemma to_not_and_or_rec_unknown_root (r : string) (f s : Formula) (n : nat) :
  is_variable r = false -> is_constant r = false ->
  is_unary r = false -> is_binary r = false ->
  well_formed f = true -> well_formed s = true ->
  6 * height f <= n -> 6 * height s <= n ->
  to_not_and_or_rec (S n) (Binary r f s) = Fails.
Proof.
  intros Hv Hc Hu Hb Hf Hs Nf Ns.
  destruct (to_not_and_or_rec_total f Hf) as [a A].
  destruct (to_not_and_or_rec_total s Hs) as [b B].
  unknown_root Hv Hc Hu Hb A B.
Qed.

Lemma to_not_and_rec_unknown_root (r : string) (f s : Formula) (n : nat) :
  is_variable r = false -> is_constant r = false ->
  is_unary r = false -> is_binary r = false ->
  well_formed f = true -> well_formed s = true ->
  6 * height f <= n -> 6 * height s <= n ->
  to_not_and_rec (S n) (Binary r f s) = Returns (Binary r f s).
Proof.
  intros Hv Hc Hu Hb Hf Hs Nf Ns.
  destruct (to_not_and_rec_total f Hf) as [a A].
  destruct (to_not_and_rec_total s Hs) as [b B].
  unknown_root Hv Hc Hu Hb A B.
Qed.

Lemma to_nand_rec_unknown_root (r : string) (f s : Formula) (n : nat) :
  is_variable r = false -> is_constant r = false ->
  is_unary r = false -> is_binary r = false ->
  well_formed f = true -> well_formed s = true ->
  6 * height f <= n -> 6 * height s <= n ->
  to_nand_rec (S n) (Binary r f s) = Returns (Binary r f s).
Proof.
  intros Hv Hc Hu Hb Hf Hs Nf Ns.
  destruct (to_nand_rec_total f Hf) as (a & A & _).
  destruct (to_nand_rec_total s Hs) as (b & B & _).
  unknown_root Hv Hc Hu Hb A B.
Qed.

Lemma to_implies_not_rec_unknown_root (r : string) (f s : Formula) (n : nat) :
  is_variable r = false -> is_constant r = false ->
  is_unary r = false -> is_binary r = false ->
  well_formed f = true -> well_formed s = true ->
  6 * height f <= n -> 6 * height s <= n ->
  to_implies_not_rec (S n) (Binary r f s) = Returns (Binary r f s).
Proof.
  intros Hv Hc Hu Hb Hf Hs Nf Ns.
  destruct (to_implies_not_rec_total f Hf) as [a A].
  destruct (to_implies_not_rec_total s Hs) as [b B].
  unknown_root Hv Hc Hu Hb A B.
Qed.

Lemma to_implies_false_rec_unknown_root (r : string) (f s : Formula) (n : nat) :
  is_variable r = false -> is_constant r = false ->
  is_unary r = false -> is_binary r = false ->
  well_formed f = true -> well_formed s = true ->
  6 * height f <= n -> 6 * height s <= n ->
  to_implies_false_rec (S n) (Binary r f s) = Returns (Binary r f s).
Proof.
  intros Hv Hc Hu Hb Hf Hs Nf Ns.
  destruct (to_implies_false_rec_total f Hf) as [a A].
  destruct (to_implies_false_rec_total s Hs) as [b B].
  unknown_root Hv Hc Hu Hb A B.
Qed.

(** X5: On a node with two well-formed children whose label is not empty and
    of no known kind, [to_not_and_or] reaches its end and returns no formula, while each
    of the other four converters returns the node as it is. *)
Theorem converters_unknown_root (r : string) (f s : Formula) :
  r <> "" ->
  is_variable r = false -> is_constant r = false ->
  is_unary r = false -> is_binary r = false ->
  well_formed f = true -> well_formed s = true ->
  to_not_and_or (Binary r f s) = Fails /\
  to_not_and (Binary r f s) = Returns (Binary r f s) /\
  to_nand (Binary r f s) = Returns (Binary r f s) /\
  to_implies_not (Binary r f s) = Returns (Binary r f s) /\
  to_implies_false (Binary r f s) = Returns (Binary r f s).
Proof.
  intros _ Hv Hc Hu Hb Hf Hs.
  unfold to_not_and_or, to_not_and, to_nand, to_implies_not,
    to_implies_false.
  rewrite call_budget_Binary.
  split; [apply to_not_and_or_rec_unknown_root; assumption || lia|].
  split; [apply to_not_and_rec_unknown_root; assumption || lia|].
  split; [apply to_nand_rec_unknown_root; assumption || lia|].
  split; [apply to_implies_not_rec_unknown_root; assumption || lia|].
  apply to_implies_false_rec_unknown_root; assumption || lia.
Qed.

Lemma converters_unknown_root_witness :
  to_not_and_or (Binary "=>" (Leaf "q") (Unary "~" (Leaf "T"))) = Fails /\
  to_not_and (Binary "=>" (Leaf "q") (Unary "~" (Leaf "T")))
    = Returns (Binary "=>" (Leaf "q") (Unary "~" (Leaf "T"))) /\
  to_nand (Binary "=>" (Leaf "q") (Unary "~" (Leaf "T")))
    = Returns (Binary "=>" (Leaf "q") (Unary "~" (Leaf "T"))) /\
  to_implies_not (Binary "=>" (Leaf "q") (Unary "~" (Leaf "T")))
    = Returns (Binary "=>" (Leaf "q") (Unary "~" (Leaf "T"))) /\
  to_implies_false (Binary "=>" (Leaf "q") (Unary "~" (Leaf "T")))
    = Returns (Binary "=>" (Leaf "q") (Unary "~" (Leaf "T"))).
Proof.
  apply converters_unknown_root; (discriminate || reflexivity).
Defined.

(** ** How the converters compose *)

Ltac call_known :=
  repeat match goal with
  | Hk : forall n : nat, @?P n |- _ => rewrite Hk by lia
  end.

Ltac step :=
  match goal with
  | |- context [?rec ?n _] =>
      is_var n; destruct n as [|n]; [exfalso; lia|]
  end;
  simpl; call_known; simpl.

Ltac steps := repeat step; reflexivity.

Lemma to_not_and_after_rec :
  forall F, well_formed F = true -> "T" ∉ operators F ->
  exists G1 G2,
    (forall n, 6 * height F <= n -> to_not_and_or_rec n F = Returns G1) /\
    (forall n, 6 * height F <= n -> to_not_and_rec n F = Returns G2) /\
    (forall n, 3 * height F <= n -> to_not_and_rec n G1 = Returns G2).
Proof.
  refine (well_formed_ind _ _ _ _ _ _).
  - intros x Hx _. exists (Leaf x), (Leaf x).
    repeat split; intros [|n] Hn;
      try (rewrite height_Leaf in Hn; lia);
      simpl; rewrite Hx; reflexivity.
  - intros HT. exfalso. apply HT. rewrite operators_T. set_solver.
  - intros _. do 2 eexists. rewrite height_Leaf.
    (split; [|split]); intros n Hn.
    1-2: steps.
    steps.
  - intros f Hf IHf HT.
    destruct IHf as (G1 & G2 & A1 & A2 & A3);
      [rewrite operators_Unary in HT; clear - HT; set_solver|].
    do 2 eexists. rewrite height_Unary.
    (split; [|split]); intros n Hn.
    1-2: steps.
    steps.
  - intros r f s Hr Hf Hs IHf IHs HT. rewrite operators_Binary in HT.
    destruct IHf as (G1 & G2 & A1 & A2 & A3); [clear - HT; set_solver|].
    destruct IHs as (K1 & K2 & B1 & B2 & B3); [clear - HT; set_solver|].
    rewrite height_Binary.
    binary_cases Hr; do 2 eexists; (split; [|split]); intros n Hn.
    1-2: steps.
    1: steps.
    1-2: steps.
    1: steps.
    1-2: steps.
    1: steps.
    1-2: steps.
    1: steps.
    1-2: steps.
    1: steps.
    1-2: steps.
    1: steps.
    1-2: steps.
    steps.
Qed.

Lemma to_implies_false_after_rec :
  forall F, well_formed F = true -> has_constant F = false ->
  exists G1 G2,
    (forall n, 6 * height F <= n -> to_implies_not_rec n F = Returns G1) /\
    (forall n, 6 * height F <= n -> to_implies_false_rec n F = Returns G2) /\
    (forall n, 6 * height F <= n -> to_implies_false_rec n G1 = Returns G2).
Proof.
  refine (well_formed_ind _ _ _ _ _ _).
  - intros x Hx _. exists (Leaf x), (Leaf x).
    repeat split; intros [|n] Hn;
      try (rewrite height_Leaf in Hn; lia);
      simpl; rewrite Hx; reflexivity.
  - intros HT. discriminate HT.
  - intros HF. discriminate HF.
  - intros f Hf IHf HC. rewrite has_constant_Unary in HC.
    destruct (IHf HC) as (G1 & G2 & A1 & A2 & A3).
    do 2 eexists. rewrite height_Unary.
    (split; [|split]); intros n Hn.
    1-2: steps.
    steps.
  - intros r f s Hr Hf Hs IHf IHs HC. rewrite has_constant_Binary in HC.
    apply orb_false_iff in HC as [HCf HCs].
    destruct (IHf HCf) as (G1 & G2 & A1 & A2 & A3).
    destruct (IHs HCs) as (K1 & K2 & B1 & B2 & B3).
    rewrite height_Binary.
    binary_cases Hr; do 2 eexists; (split; [|split]); intros n Hn.
    1-2: steps.
    1: steps.
    1-2: steps.
    1: steps.
    1-2: steps.
    1: steps.
    1-2: steps.
    1: steps.
    1-2: steps.
    1: steps.
    1-2: steps.
    1: steps.
    1-2: steps.
    steps.
Qed.

(** X6: Converting to [{~,&,|}] and then to [{~,&}] gives the formula that the
    conversion to [{~,&}] gives at once, on formulas without ['T']. *)
Theorem to_not_and_after_to_not_and_or (F : Formula) :
  well_formed F = true -> "T" ∉ operators F ->
  exists G1 G2,
    to_not_and_or F = Returns G1 /\
    to_not_and F = Returns G2 /\
    to_not_and G1 = Returns G2.
Proof.
  intros Hwf HT.
  destruct (to_not_and_after_rec F Hwf HT) as (G1 & G2 & A1 & A2 & A3).
  destruct (to_not_and_or_rec_height F Hwf) as (G1' & A1' & B1).
  assert (Hn : 6 * height F <= call_budget F) by (unfold call_budget; lia).
  assert (G1' = G1) as ->.
  { specialize (A1 _ Hn). specialize (A1' _ Hn). congruence. }
  exists G1, G2. split; [exact (A1 _ Hn)|]. split; [exact (A2 _ Hn)|].
  apply A3. unfold call_budget. lia.
Qed.

Lemma to_not_and_after_to_not_and_or_witness :
  exists G1 G2,
    to_not_and_or
      (Binary "<->" (Leaf "q") (Binary "->" (Leaf "F") (Leaf "r")))
      = Returns G1 /\
    to_not_and
      (Binary "<->" (Leaf "q") (Binary "->" (Leaf "F") (Leaf "r")))
      = Returns G2 /\
    to_not_and G1 = Returns G2.
Proof.
  apply to_not_and_after_to_not_and_or; [reflexivity|compute_done].
Defined.

(** With ['T'] the two ways differ: [p | ~p] becomes [~(~p & ~~p)], while
    ['T'] itself becomes [~(p & ~p)]. *)
Lemma to_not_and_after_to_not_and_or_T :
  (let* G1 := to_not_and_or (Leaf "T") in to_not_and G1)
  <> to_not_and (Leaf "T").
Proof. vm_compute. discriminate. Qed.

(** X7: Converting to [{->,~}] and then to [{->,F}] gives the formula that the
    conversion to [{->,F}] gives at once, on formulas without constants. *)
Theorem to_implies_false_after_to_implies_not (F : Formula) :
  well_formed F = true -> has_constant F = false ->
  exists G1 G2,
    to_implies_not F = Returns G1 /\
    to_implies_false F = Returns G2 /\
    to_implies_false G1 = Returns G2.
Proof.
  intros Hwf HC.
  destruct (to_implies_false_after_rec F Hwf HC)
    as (G1 & G2 & A1 & A2 & A3).
  destruct (to_implies_not_rec_height F Hwf) as (G1' & A1' & B1).
  assert (Hn : 6 * height F <= call_budget F) by (unfold call_budget; lia).
  assert (G1' = G1) as ->.
  { specialize (A1 _ Hn). specialize (A1' _ Hn). congruence. }
  exists G1, G2. split; [exact (A1 _ Hn)|]. split; [exact (A2 _ Hn)|].
  apply A3. unfold call_budget. lia.
Qed.

Lemma to_implies_false_after_to_implies_not_witness :
  exists G1 G2,
    to_implies_not (Binary "+" (Leaf "q") (Binary "-&" (Leaf "p") (Leaf "r")))
      = Returns G1 /\
    to_implies_false (Binary "+" (Leaf "q") (Binary "-&" (Leaf "p") (Leaf "r")))
      = Returns G2 /\
    to_implies_false G1 = Returns G2.
Proof.
  apply to_implies_false_after_to_implies_not; reflexivity.
Defined.

(** X8: A result of [to_not_and] is a formula over [{~,&,|}] as well, so that
    [to_not_and_or] returns it unchanged. *)
Theorem to_not_and_or_after_to_not_and (F : Formula) :
  well_formed F = true ->
  exists G, to_not_and F = Returns G /\ to_not_and_or G = Returns G.
Proof.
  intros Hwf.
  destruct (to_not_and_correct F Hwf) as (G & HG & (WG & OG & _) & _).
  exists G. split; [exact HG|].
  apply to_not_and_or_basis; [exact WG|].
  unfold not_and_basis in OG. unfold not_and_or_basis. clear - OG.
  set_solver.
Qed.

Lemma to_not_and_or_after_to_not_and_witness :
  exists G,
    to_not_and (Binary "-|" (Leaf "q") (Leaf "T")) = Returns G /\
    to_not_and_or G = Returns G.
Proof.
  apply to_not_and_or_after_to_not_and. reflexivity.
Defined.
